(** * CityFlow Analytics: storage layer and export shaping

    A shallow embedding of the persistence slice of the CityFlow pipeline:
    - [utils/database_factory.py]   (backend selection),
    - [utils/local_file_service.py] (JSON files on local disk),
    - [processors/main.py]          ([export_results]: shaping and export),
    - [upload_to_aws.py]            (manual replay of local files).

    Python values are JSON trees, exceptions are an explicit result type,
    directories are finite maps from file names to file contents, and the
    wall clock, the environment and the answers of remote services are
    inputs of the functions that read them. *)

From Stdlib Require Import ZArith Ascii String List Sorted Permutation Lia.
From Stdlib Require OrdersEx.
From stdpp Require Import gmap strings list fin_maps sorting pretty.

Set Warnings "-register-all".
Local Open Scope Z_scope.

(** ** Python values *)

(** What [json.load] returns and [json.dump] accepts: [None], booleans,
    integers, strings (as UTF-8 byte strings, whose byte order is the code
    point order), lists, and dicts with string keys in insertion order. Keys of
    a dict are distinct; [dict_lookup] reads the first binding. Non-integer
    numbers are not part of this fragment. *)
Inductive json : Type :=
| JNull
| JBool (b : bool)
| JNum (n : Z)
| JStr (s : string)
| JList (l : list json)
| JDict (d : list (string * json)).

Inductive exn : Type :=
| TypeError
| AttributeError
| KeyError
| ValueError
| ImportError
| OSError
| JSONDecodeError.

(** A computation that returns or raises. *)
Inductive res (A : Type) : Type :=
| Ok (a : A)
| Raise (e : exn).
Arguments Ok {A} a.
Arguments Raise {A} e.

Global Instance res_ret : MRet res := λ A a, Ok a.
Global Instance res_bind : MBind res := λ A B f m,
  match m with
  | Ok a => f a
  | Raise e => Raise e
  end.
Global Instance res_fmap : FMap res := λ A B f m,
  match m with
  | Ok a => Ok (f a)
  | Raise e => Raise e
  end.

(** [try: body except Exception: handler]. *)
Definition try_except {A : Type} (body : res A) (handler : A) : A :=
  match body with
  | Ok a => a
  | Raise _ => handler
  end.

Module Py.

(** [bool(v)]. *)
Definition truthy (v : json) : bool :=
  match v with
  | JNull => false
  | JBool b => b
  | JNum n => negb (n =? 0)
  | JStr s => negb (String.eqb s "")
  | JList l => match l with [] => false | _ => true end
  | JDict d => match d with [] => false | _ => true end
  end.

Fixpoint dict_lookup (k : string) (d : list (string * json)) : option json :=
  match d with
  | [] => None
  | (k', v) :: d' => if String.eqb k' k then Some v else dict_lookup k d'
  end.

(** [d[k] = v]: an existing key keeps its place, a new key goes last. *)
Fixpoint dict_set (k : string) (v : json) (d : list (string * json))
  : list (string * json) :=
  match d with
  | [] => [(k, v)]
  | (k', v') :: d' =>
      if String.eqb k' k then (k', v) :: d' else (k', v') :: dict_set k v d'
  end.

(** [v.get(k, default)]; only dicts have [get]. *)
Definition get (v : json) (k : string) (default : json) : res json :=
  match v with
  | JDict d => Ok (match dict_lookup k d with Some x => x | None => default end)
  | _ => Raise AttributeError
  end.

(** [needle in hay] on two strings. *)
Fixpoint contains (needle hay : string) : bool :=
  String.prefix needle hay ||
  match hay with
  | EmptyString => false
  | String _ hay' => contains needle hay'
  end.

Definition is_str (k : string) (v : json) : bool :=
  match v with
  | JStr s => String.eqb s k
  | _ => false
  end.

(** [k in v] for a string [k]: key membership in a dict, element
    membership in a list, substring test in a string. *)
Definition contains_key (k : string) (v : json) : res bool :=
  match v with
  | JDict d => Ok (match dict_lookup k d with Some _ => true | None => false end)
  | JList l => Ok (existsb (is_str k) l)
  | JStr s => Ok (contains k s)
  | _ => Raise TypeError
  end.

(** [v[k]] for a string [k]. *)
Definition getitem (v : json) (k : string) : res json :=
  match v with
  | JDict d => match dict_lookup k d with Some x => Ok x | None => Raise KeyError end
  | _ => Raise TypeError
  end.

Fixpoint chars (s : string) : list json :=
  match s with
  | EmptyString => []
  | String c s' => JStr (String c EmptyString) :: chars s'
  end.

(** The elements visited by [for x in v]. *)
Definition iter (v : json) : res (list json) :=
  match v with
  | JList l => Ok l
  | JDict d => Ok (map (λ kv, JStr kv.1) d)
  | JStr s => Ok (chars s)
  | _ => Raise TypeError
  end.

(** [v == ""]. *)
Definition is_empty_str (v : json) : bool := is_str "" v.

Definition num_of_bool (b : bool) : Z := if b then 1 else 0.

(** [a == b]. *)
Fixpoint eq (a b : json) {struct a} : bool :=
  match a, b with
  | JNull, JNull => true
  | JBool x, JBool y => Bool.eqb x y
  | JBool x, JNum y => num_of_bool x =? y
  | JNum x, JBool y => x =? num_of_bool y
  | JNum x, JNum y => x =? y
  | JStr x, JStr y => String.eqb x y
  | JList l1, JList l2 =>
      (fix go (l1 l2 : list json) {struct l1} : bool :=
         match l1, l2 with
         | [], [] => true
         | x :: l1', y :: l2' => eq x y && go l1' l2'
         | _, _ => false
         end) l1 l2
  | JDict d1, JDict d2 =>
      (length d1 =? length d2)%nat &&
      (fix go (d : list (string * json)) {struct d} : bool :=
         match d with
         | [] => true
         | (k, v) :: d' =>
             match dict_lookup k d2 with
             | Some v' => eq v v' && go d'
             | None => false
             end
         end) d1
  | _, _ => false
  end.

(** [a < b]; [TypeError] when Python does not order the two values. *)
Fixpoint lt (a b : json) {struct a} : res bool :=
  match a, b with
  | JBool x, JBool y => Ok (num_of_bool x <? num_of_bool y)
  | JBool x, JNum y => Ok (num_of_bool x <? y)
  | JNum x, JBool y => Ok (x <? num_of_bool y)
  | JNum x, JNum y => Ok (x <? y)
  | JStr x, JStr y => Ok (String.ltb x y)
  | JList l1, JList l2 =>
      (fix go (l1 l2 : list json) {struct l1} : res bool :=
         match l1, l2 with
         | [], [] => Ok false
         | [], _ :: _ => Ok true
         | _ :: _, [] => Ok false
         | x :: l1', y :: l2' => if eq x y then go l1' l2' else lt x y
         end) l1 l2
  | _, _ => Raise TypeError
  end.

End Py.

(** ** Loops, sorting, strings *)

(** [for x in xs: s = body(s, x)], stopping at the first exception. *)
Fixpoint for_each {S A : Type} (body : S → A → res S) (xs : list A) (s : S)
  : res S :=
  match xs with
  | [] => Ok s
  | x :: xs' => s' ← body s x; for_each body xs' s'
  end.

Section sorting.
Context {K A : Type}.
(** The comparison [a < b] of two keys, which may raise. *)
Variable lt : K → K → res bool.

(** A stable insertion sort on (key, element) pairs; the first comparison
    that raises aborts the sort. This stands for [list.sort(key=...)]. *)
Fixpoint insert_by (x : K * A) (l : list (K * A)) : res (list (K * A)) :=
  match l with
  | [] => Ok [x]
  | y :: l' =>
      b ← lt y.1 x.1;
      if b : bool then r ← insert_by x l'; Ok (y :: r) else Ok (x :: y :: l')
  end.

Fixpoint sort_pairs (l : list (K * A)) : res (list (K * A)) :=
  match l with
  | [] => Ok []
  | x :: l' => s ← sort_pairs l'; insert_by x s
  end.

(** [l.sort(key=key)]: the keys are computed first, then compared. *)
Definition sort_by (key : A → res K) (l : list A) : res (list A) :=
  keys ← mapM key l;
  s ← sort_pairs (zip keys l);
  Ok (map snd s).

(** [a] may stand before [b]: a comparison placed them in this order. *)
Definition ascending (a b : K) : Prop := lt a b = Ok true ∨ lt b a = Ok false.
End sorting.

Section sorting_total.
Context {K A : Type}.
(** A comparison [a < b] that cannot raise, as between two strings. *)
Variable ltb : K → K → bool.

Fixpoint insert_sorted (key : A → K) (x : A) (l : list A) : list A :=
match l with
| [] => [x]
| y :: l' => if ltb (key y) (key x) then y :: insert_sorted key x l' else x :: y :: l'
end.

(** [sorted(l, key=key)], stable. *)
Fixpoint sorted_by (key : A → K) (l : list A) : list A :=
match l with
| [] => []
| x :: l' => insert_sorted key x (sorted_by key l')
end.

(** [x] may stand before [y] under this comparison. *)
Definition in_order (key : A → K) (x y : A) : Prop :=
ltb (key x) (key y) = true ∨ ltb (key y) (key x) = false.
End sorting_total.

Module Str.

(** [s.split(sep)] for a one-character separator. *)
Fixpoint split (sep : ascii) (s : string) : list string :=
  match s with
  | EmptyString => [EmptyString]
  | String c s' =>
      if Ascii.eqb c sep then EmptyString :: split sep s'
      else match split sep s' with
           | [] => [String c EmptyString]
           | p :: ps => String c p :: ps
           end
  end.

(** [s.rfind(".")]: the index of the last dot. *)
Fixpoint rfind_dot (s : string) : option nat :=
  match s with
  | EmptyString => None
  | String c s' =>
      match rfind_dot s' with
      | Some i => Some (S i)
      | None => if Ascii.eqb c "." then Some 0%nat else None
      end
  end.

(** [Path(name).stem]: the name without its last suffix; a leading or a
    trailing dot does not start a suffix. *)
Definition stem (name : string) : string :=
  match rfind_dot name with
  | Some i =>
      if ((0 <? i)%nat && (i <? String.length name - 1)%nat)%bool
      then String.substring 0 i name
      else name
  | None => name
  end.

(** Shell-style matching of one path component: [*] matches any run of
    characters, [?] any one character, every other character itself
    (bracket classes do not occur in the patterns built here from plain
    data types and dates). *)
Fixpoint fnmatch (pattern name : string) {struct pattern} : bool :=
  match pattern with
  | EmptyString => match name with EmptyString => true | _ => false end
  | String p pattern' =>
      if Ascii.eqb p "*" then
        (fix star (name : string) : bool :=
           fnmatch pattern' name ||
           match name with
           | EmptyString => false
           | String _ name' => star name'
           end) name
      else
        match name with
        | EmptyString => false
        | String c name' =>
            (Ascii.eqb p "?" || Ascii.eqb p c) && fnmatch pattern' name'
        end
  end.

(** [a <= b] on strings. *)
Definition le (a b : string) : Prop := String.leb a b = true.

(** [l.sort()] and [sorted(l)] on strings. *)
Definition sort (l : list string) : list string := sorted_by String.ltb id l.

End Str.

(** ** Files *)

(** What reading a file gives: [json.load] raises on text that is not JSON,
    or returns the decoded value. *)
Inductive content : Type :=
| Invalid
| Document (data : json).

(** [dir.glob(pattern)] for a one-component pattern: the entries of the
    directory whose name matches, each with what reading it gives. *)
Definition glob (dir : gmap string content) (pattern : string)
  : list (string * content) :=
filter (λ f, Str.fnmatch pattern f.1 = true) (map_to_list dir).

(** [with open(path) as f: json.load(f)]. *)
Definition json_load (c : content) : res json :=
match c with
| Invalid => Raise JSONDecodeError
| Document data => Ok data
end.

(** ** utils/local_file_service.py *)

Module LocalFileService.

(** An initialised service: the files of its two directories, which names
    [open(path, "w")] accepts at the moment (a missing parent directory, a
    read-only disk and the like make it raise [OSError]), and which
    documents [json.dump] writes out to the end (an integer beyond the
    interpreter's digit limit makes it raise [ValueError], a full disk
    [OSError]). *)
Record t : Type := mk {
  metrics_dir : gmap string content;
  reports_dir : gmap string content;
  writable : string → bool;
  dumpable : json → bool
}.

(** Paths are kept relative to [metrics_dir] and [reports_dir]. *)
Definition _get_metrics_path (data_type date : string) : string :=
data_type +:+ "_metrics_" +:+ date +:+ ".json".

Definition _get_report_path (date : string) : string :=
"daily_report_" +:+ date +:+ ".json".

(** The record written for one (data_type, date); [now] is
    [datetime.now().isoformat()]. *)
Definition metrics_record (now : string) (metrics : json) (data_type date : string)
  : json :=
JDict [("metric_type", JStr data_type); ("date", JStr date);
       ("timestamp", JStr now); ("metrics", metrics)].

Definition report_record (now : string) (report : json) (date : string) : json :=
JDict [("report_id", JStr ("daily_report_" +:+ date)); ("date", JStr date);
       ("timestamp", JStr now); ("report", report)].

(** The [try] block of [save_metrics]: the service afterwards, and whether
    the block returned. [open(file_path, "w")] empties the file before
    [json.dump] writes, so a dump that raises leaves text that is not
    JSON where the record was. *)
Definition save_metrics_body (svc : t) (now : string) (metrics : json)
    (data_type date : string) : t * res unit :=
let file_path := _get_metrics_path data_type date in
let data := metrics_record now metrics data_type date in
if writable svc file_path then
  if dumpable svc data
  then (mk (<[file_path := Document data]> (metrics_dir svc))
           (reports_dir svc) (writable svc) (dumpable svc), Ok ())
  else (mk (<[file_path := Invalid]> (metrics_dir svc))
           (reports_dir svc) (writable svc) (dumpable svc), Raise ValueError)
else (svc, Raise OSError).

(** [save_metrics]: the service afterwards and the returned flag. *)
Definition save_metrics (svc : t) (now : string) (metrics : json)
    (data_type date : string) : t * bool :=
let r := save_metrics_body svc now metrics data_type date in
(r.1, match r.2 with Ok _ => true | Raise _ => false end).

Definition load_metrics_body (svc : t) (data_type date : string) : res json :=
let file_path := _get_metrics_path data_type date in
match metrics_dir svc !! file_path with
| None => Ok JNull
| Some c => data ← json_load c; Py.get data "metrics" JNull
end.

(** [load_metrics]: the stored metrics, or [None]. *)
Definition load_metrics (svc : t) (data_type date : string) : json :=
try_except (load_metrics_body svc data_type date) JNull.

Definition save_report_body (svc : t) (now : string) (report : json)
    (date : string) : t * res unit :=
let file_path := _get_report_path date in
let data := report_record now report date in
if writable svc file_path then
  if dumpable svc data
  then (mk (metrics_dir svc) (<[file_path := Document data]> (reports_dir svc))
           (writable svc) (dumpable svc), Ok ())
  else (mk (metrics_dir svc) (<[file_path := Invalid]> (reports_dir svc))
           (writable svc) (dumpable svc), Raise ValueError)
else (svc, Raise OSError).

Definition save_report (svc : t) (now : string) (report : json) (date : string)
  : t * bool :=
let r := save_report_body svc now report date in
(r.1, match r.2 with Ok _ => true | Raise _ => false end).

Definition load_report_body (svc : t) (date : string) : res json :=
let file_path := _get_report_path date in
match reports_dir svc !! file_path with
| None => Ok JNull
| Some c => data ← json_load c; Py.get data "report" JNull
end.

Definition load_report (svc : t) (date : string) : json :=
try_except (load_report_body svc date) JNull.

(** [parts[-1]] when [len(parts) >= 3], for [parts = stem.split("_")]. *)
Definition file_date (name : string) : option string :=
let parts := Str.split "_" (Str.stem name) in
if (3 <=? length parts)%nat then last parts else None.

Definition in_range (start_date end_date file_date : string) : bool :=
String.leb start_date file_date && String.leb file_date end_date.

(** One round of the loop of [query_metrics_by_date_range]. *)
Definition query_step (start_date end_date : string) (results : list json)
    (file : string * content) : res (list json) :=
match file_date file.1 with
| Some fd =>
    if in_range start_date end_date fd then
      data ← json_load file.2;
      date ← Py.get data "date" (JStr fd);
      metrics ← Py.get data "metrics" JNull;
      Ok (results ++ [JDict [("date", date); ("metrics", metrics)]])
    else Ok results
| None => Ok results
end.

(** [lambda x: x.get("date", "")]. *)
Definition date_key (x : json) : res json := Py.get x "date" (JStr "").

Definition query_metrics_by_date_range_body (svc : t)
    (data_type start_date end_date : string) : res (list json) :=
let pattern := data_type +:+ "_metrics_*.json" in
results ← for_each (query_step start_date end_date)
                   (glob (metrics_dir svc) pattern) [];
sort_by Py.lt date_key results.

Definition query_metrics_by_date_range (svc : t)
    (data_type start_date end_date : string) : list json :=
try_except (query_metrics_by_date_range_body svc data_type start_date end_date) [].

(** One round of the loop of [list_available_dates]. *)
Definition dates_step (dates : list string) (file : string * content)
  : res (list string) :=
match file_date file.1 with
| Some date => Ok (dates ++ [date])
| None => Ok dates
end.

Definition list_available_dates_body (svc : t) (data_type : string)
  : res (list string) :=
let pattern := data_type +:+ "_metrics_*.json" in
dates ← for_each dates_step (glob (metrics_dir svc) pattern) [];
Ok (Str.sort dates).

Definition list_available_dates (svc : t) (data_type : string) : list string :=
try_except (list_available_dates_body svc data_type) [].

Definition get_latest_metrics (svc : t) (data_type : string) : json :=
match last (list_available_dates svc data_type) with
| None => JNull
| Some latest_date => load_metrics svc data_type latest_date
end.

Definition close (svc : t) : t := svc.

(** The stored files that hold the record of one (data_type, date). *)
Definition records_of (svc : t) (data_type date : string)
  : list (string * content) :=
filter (λ f, f.1 = _get_metrics_path data_type date) (map_to_list (metrics_dir svc)).

End LocalFileService.

(** ** utils/database_factory.py *)

(** What the process sees of its surroundings: which paths exist, the
    environment variables, and what importing and constructing each of the
    two services leads to (a missing [pymongo] makes the first raise
    [ImportError]). *)
Record environment : Type := {
  path_exists : string → bool;
  getenv : string → option string;
  mongodb_service : res unit;
  local_file_service : res unit
}.

Module DatabaseFactory.

(** The class of the instance that the factory returns. *)
Inductive service : Type :=
| MongoDBService
| LocalFileService.

(** The name under which each class is reported. *)
Definition kind (s : service) : string :=
match s with
| MongoDBService => "mongodb"
| LocalFileService => "local_files"
end.

Definition local_bucket : string := "bucket-cityflow-paris-s3-raw".

Definition get_database_service (env : environment) : res service :=
let db_type :=
  if negb (path_exists env local_bucket) then "local_files" else "mongodb" in
if String.eqb db_type "mongodb" then
  _ ← mongodb_service env; Ok MongoDBService
else if String.eqb db_type "local_files" then
  _ ← local_file_service env; Ok LocalFileService
else Raise ValueError.

Definition get_database_type (env : environment) : string :=
if negb (path_exists env local_bucket) then "local_files" else "mongodb".

Definition test_database_connection (env : environment) : bool :=
try_except (_ ← get_database_service env; Ok true) false.

End DatabaseFactory.

(** ** processors/main.py: export_results *)

Module Main.

(** What [export_results] does to the outside, in order. [SaveJson] names
    its file relative to [config.METRICS_DIR]. *)
Inductive event : Type :=
| DbSaveMetrics (metrics : json) (data_type date : string)
| SaveJson (data : json) (path : string)
| DbClose
| CleanupChunks.

(** [x[k] = v]; reached here only after [x[k]] was read. *)
Definition setitem (x : json) (k : string) (v : json) : res json :=
match x with
| JDict d => Ok (JDict (Py.dict_set k v d))
| _ => Raise TypeError
end.

Section export_results.
(** [repr] of a list or a dict, as an f-string prints it. *)
Variable repr : json → string.
(** [utils.metrics_optimizer]: the size test and the trimmed copy. *)
Variable should_optimize_for_mongodb : string → json → bool.
Variable optimize_metrics_for_storage : string → json → json.
(** The flag that the back end's [save_metrics] returns. *)
Variable db_save_metrics : DatabaseFactory.service → json → string → string → bool.

(** [f"{v}"]. *)
Definition str (v : json) : string :=
match v with
| JNull => "None"
| JBool true => "True"
| JBool false => "False"
| JNum n => pretty n
| JStr s => s
| _ => repr v
end.

(** [if "date" in x and x["date"] == "": x["date"] = date]. *)
Definition fill_date (date : string) (x : json) : res json :=
has ← Py.contains_key "date" x;
if has : bool then
  v ← Py.getitem x "date";
  if Py.is_empty_str v then setitem x "date" (JStr date) else Ok x
else Ok x.

(** The same behind [isinstance(metric, dict)]. *)
Definition fill_metric_date (date : string) (metric : json) : res json :=
match metric with
| JDict _ => fill_date date metric
| _ => Ok metric
end.

(** The body of the loop over [top_10_zones_congestionnees]. *)
Definition fill_zone (date : string) (zone : json) : res json :=
zone ← fill_date date zone;
has ← Py.contains_key "zone_fallback" zone;
missing ← (if has : bool
           then v ← Py.get zone "zone_fallback" JNull; Ok (negb (Py.truthy v))
           else Ok true);
if missing : bool then
  arr ← Py.get zone "arrondissement" (JStr "Unknown");
  if negb (Py.eq arr (JStr "Unknown"))
  then setitem zone "zone_fallback" (JStr ("Arrondissement " +:+ str arr))
  else setitem zone "zone_fallback" (JStr "Unknown")
else Ok zone.

(** [for x in coll: f(x)] where [f] updates [x] in place. Only the elements
    of a list can change; the keys of a dict and the characters of a string
    are visited, which may raise, and [coll] stays as it is. *)
Definition fill_each (f : json → res json) (coll : json) : res json :=
match coll with
| JList l => l' ← mapM f l; Ok (JList l')
| _ => xs ← Py.iter coll; _ ← mapM f xs; Ok coll
end.

(** [if key in indicators: for x in indicators[key]: f(x)]. *)
Definition fill_collection (key : string) (f : json → res json)
    (indicators : json) : res json :=
has ← Py.contains_key key indicators;
if has : bool then
  coll ← Py.getitem indicators key;
  coll' ← fill_each f coll;
  setitem indicators key coll'
else Ok indicators.

(** The first block, which also asks for [isinstance(_, list)]. *)
Definition fill_metrics (date : string) (indicators : json) : res json :=
has ← Py.contains_key "metrics" indicators;
if has : bool then
  coll ← Py.getitem indicators "metrics";
  match coll with
  | JList _ => coll' ← fill_each (fill_metric_date date) coll;
               setitem indicators "metrics" coll'
  | _ => Ok indicators
  end
else Ok indicators.

Definition shape_indicators (date : string) (indicators : json) : res json :=
indicators ← fill_metrics date indicators;
indicators ← fill_collection "top_10_troncons" (fill_date date) indicators;
indicators ← fill_collection "top_10_zones_congestionnees" (fill_zone date) indicators;
fill_collection "alertes_congestion" (fill_date date) indicators.

(** One round of the first loop of [export_results]. *)
Definition shape_result (date : string) (result : json) : res json :=
if Py.truthy result then
  indicators ← Py.get result "indicators" JNull;
  if Py.truthy indicators then
    indicators' ← shape_indicators date indicators;
    setitem result "indicators" indicators'
  else Ok result
else Ok result.

Definition shape_results (date : string) (results : list (string * json))
  : res (list (string * json)) :=
mapM (λ item, result' ← shape_result date item.2; Ok (item.1, result')) results.

(** The name of the local backup of one data type. *)
Definition backup_path (data_type date : string) : string :=
data_type +:+ "_metrics_" +:+ date +:+ ".json".

(** [not os.getenv("AWS_EXECUTION_ENV")]. *)
Definition outside_aws (env : environment) : bool :=
match getenv env "AWS_EXECUTION_ENV" with
| None => true
| Some v => String.eqb v ""
end.

(** The write to the back end, with the counter of exported types. *)
Definition db_write (db : DatabaseFactory.service) (metrics : json)
    (data_type date : string) (st : list event * nat) : list event * nat :=
(st.1 ++ [DbSaveMetrics metrics data_type date],
 if db_save_metrics db metrics data_type date then S st.2 else st.2).

(** One round of the second loop of [export_results]. *)
Definition export_step (env : environment) (db_service : option DatabaseFactory.service)
    (date : string) (st : list event * nat) (item : string * json)
  : res (list event * nat) :=
let data_type := item.1 in
let result := item.2 in
if Py.truthy result then
  success ← Py.get result "success" JNull;
  if Py.truthy success then
    indicators ← Py.get result "indicators" (JDict []);
    if Py.truthy indicators then
      let st :=
        match db_service with
        | Some db =>
            if should_optimize_for_mongodb data_type indicators
            then db_write db (optimize_metrics_for_storage data_type indicators)
                          data_type date st
            else db_write db indicators data_type date st
        | None => st
        end in
      Ok (if outside_aws env
          then (st.1 ++ [SaveJson indicators (backup_path data_type date)], st.2)
          else st)
    else Ok st
  else Ok st
else Ok st.

(** [export_results(results, config, date)]: the results after shaping, the
    effects in order and the number of exported types. [today] is
    [datetime.now().strftime("%Y-%m-%d")]. *)
Definition export_results (env : environment) (today : string)
    (results : list (string * json)) (date : option string)
  : res (list (string * json) * list event * nat) :=
let date := match date with Some d => d | None => today end in
results ← shape_results date results;
let db_service :=
  match DatabaseFactory.get_database_service env with
  | Ok db => Some db
  | Raise _ => None
  end in
st ← for_each (export_step env db_service date) results ([], 0%nat);
Ok (results,
    st.1 ++ (match db_service with Some _ => [DbClose] | None => [] end)
         ++ [CleanupChunks],
    st.2).

End export_results.

(** The files of [config.METRICS_DIR] after the effects of a run. *)
Fixpoint backup_files (trace : list event) (dir : gmap string json)
  : gmap string json :=
match trace with
| [] => dir
| SaveJson data path :: trace' => backup_files trace' (<[path := data]> dir)
| _ :: trace' => backup_files trace' dir
end.

(** The metrics that the back end was asked to store, oldest first. *)
Fixpoint db_writes (trace : list event) : list (string * string * json) :=
match trace with
| [] => []
| DbSaveMetrics metrics data_type date :: trace' =>
    (data_type, date, metrics) :: db_writes trace'
| _ :: trace' => db_writes trace'
end.

End Main.

(** ** upload_to_aws.py *)

Module AWSUploader.

Section uploader.
(** Whether [metrics_table.put_item(Item=item)] returns; it raises
    otherwise. *)
Variable put_item_ok : json → bool.
(** [datetime.now()]: as an ISO string, and as whole seconds since the
    epoch. *)
Variable now : string.
Variable now_timestamp : Z.

Definition metrics_item (metric_type date timestamp metrics : json) : json :=
JDict [("metric_type", metric_type); ("date", date); ("timestamp", timestamp);
       ("metrics", metrics); ("ttl", JNum (now_timestamp + 365 * 24 * 3600))].

(** The table is the sequence of the items it accepted. *)
Definition upload_metrics_file_body (table : list json) (file : content)
  : res (list json * bool) :=
data ← json_load file;
metric_type ← Py.get data "metric_type" JNull;
date ← Py.get data "date" JNull;
metrics ← Py.get data "metrics" JNull;
if negb (Py.truthy metric_type) || negb (Py.truthy date) || negb (Py.truthy metrics)
then Ok (table, false)
else
  timestamp ← Py.get data "timestamp" (JStr now);
  let item := metrics_item metric_type date timestamp metrics in
  if put_item_ok item then Ok (table ++ [item], true) else Raise OSError.

Definition upload_metrics_file (table : list json) (file : content)
  : list json * bool :=
try_except (upload_metrics_file_body table file) (table, false).

(** The tally [{"success": _, "failed": _}] with the table. *)
Record tally : Type := {
  table : list json;
  success : nat;
  failed : nat
}.

(** One round of the loop of [upload_all_metrics]. *)
Definition upload_step (st : tally) (file : string * content) : tally :=
let r := upload_metrics_file (table st) file.2 in
if r.2 then {| table := r.1; success := S (success st); failed := failed st |}
else {| table := r.1; success := success st; failed := S (failed st) |}.

Definition metrics_pattern (date_filter : option string) : string :=
match date_filter with
| Some d => if String.eqb d "" then "*_metrics_*.json"
            else "*_metrics_" +:+ d +:+ ".json"
| None => "*_metrics_*.json"
end.

(** [sorted(metrics_dir.glob(pattern))]; no files when [output/metrics]
    does not exist. *)
Definition candidate_files (metrics_dir : option (gmap string content))
    (date_filter : option string) : list (string * content) :=
match metrics_dir with
| None => []
| Some dir => sorted_by String.ltb fst (glob dir (metrics_pattern date_filter))
end.

Definition upload_all_metrics (metrics_dir : option (gmap string content))
    (date_filter : option string) (table0 : list json) : tally :=
match metrics_dir with
| None => {| table := table0; success := 0; failed := 0 |}
| Some dir =>
    let files := sorted_by String.ltb fst (glob dir (metrics_pattern date_filter)) in
    match files with
    | [] => {| table := table0; success := 0; failed := 0 |}
    | _ => fold_left upload_step files {| table := table0; success := 0; failed := 0 |}
    end
end.

End uploader.

End AWSUploader.

(** ** upload_to_aws.py: reports *)

Module AWSUploaderReports.

(** What [upload_report_file] does to AWS, in order: an item put in the
    reports table, a JSON object put in the reports bucket, a local file
    copied to the bucket. *)
Inductive event : Type :=
| PutItem (item : json)
| PutObject (key : string) (data : json)
| UploadFile (local_name key : string).

Section uploader.
(** [repr] of a list or a dict, as an f-string prints it. *)
Variable repr : json → string.
(** Whether [reports_table.put_item], [s3.put_object] and [s3.upload_file]
    return; each raises otherwise. *)
Variable put_item_ok : json → bool.
Variable put_object_ok : string → bool.
Variable upload_file_ok : string → bool.
(** [datetime.now()]: as an ISO string, and as whole seconds since the
    epoch. *)
Variable now : string.
Variable now_timestamp : Z.
(** [self.reports_prefix]. *)
Variable reports_prefix : string.

Definition report_item (report_id date timestamp report : json) : json :=
JDict [("report_id", report_id); ("date", date); ("timestamp", timestamp);
       ("report", report); ("ttl", JNum (now_timestamp + 365 * 24 * 3600))].

Definition s3_key (date : json) : string :=
reports_prefix +:+ "/daily_report_" +:+ Main.str repr date +:+ ".json".

(** The CSV beside the report, by its name in the directory of the
    report. *)
Definition csv_name (date : json) : string :=
"daily_report_" +:+ Main.str repr date +:+ ".csv".

Definition s3_csv_key (date : json) : string :=
reports_prefix +:+ "/daily_report_" +:+ Main.str repr date +:+ ".csv".

(** The first part of [upload_report_file], which touches nothing: the
    document, its date and the item to put, or nothing for a file with a
    missing field. *)
Definition read_report (file : content) : res (option (json * json * json)) :=
data ← json_load file;
report_id ← Py.get data "report_id" JNull;
date ← Py.get data "date" JNull;
report ← Py.get data "report" JNull;
if negb (Py.truthy report_id) || negb (Py.truthy date) || negb (Py.truthy report)
then Ok None
else
  timestamp ← Py.get data "timestamp" (JStr now);
  Ok (Some (data, date, report_item report_id date timestamp report)).

(** [upload_report_file(file_path)]: the effects so far with those of this
    call, and the returned flag. What was done before a call raises stays
    done. *)
Definition upload_report_file (reports_dir : gmap string content)
    (trace : list event) (file : content) : list event * bool :=
match read_report file with
| Raise _ => (trace, false)
| Ok None => (trace, false)
| Ok (Some (data, date, item)) =>
    if put_item_ok item then
      let trace := trace ++ [PutItem item] in
      if put_object_ok (s3_key date) then
        let trace := trace ++ [PutObject (s3_key date) data] in
        match reports_dir !! csv_name date with
        | Some _ =>
            if upload_file_ok (s3_csv_key date)
            then (trace ++ [UploadFile (csv_name date) (s3_csv_key date)], true)
            else (trace, false)
        | None => (trace, true)
        end
      else (trace, false)
    else (trace, false)
end.

(** The tally [{"success": _, "failed": _}] with the effects. *)
Record tally : Type := {
  effects : list event;
  success : nat;
  failed : nat
}.

(** One round of the loop of [upload_all_reports]. *)
Definition upload_step (reports_dir : gmap string content) (st : tally)
    (file : string * content) : tally :=
let r := upload_report_file reports_dir (effects st) file.2 in
if r.2 then {| effects := r.1; success := S (success st); failed := failed st |}
else {| effects := r.1; success := success st; failed := S (failed st) |}.

Definition reports_pattern (date_filter : option string) : string :=
match date_filter with
| Some d => if String.eqb d "" then "daily_report_*.json"
            else "daily_report_" +:+ d +:+ ".json"
| None => "daily_report_*.json"
end.

(** [upload_all_reports(date_filter)]; [reports_dir] is [None] when
    [output/reports] does not exist. *)
Definition upload_all_reports (reports_dir : option (gmap string content))
    (date_filter : option string) (trace0 : list event) : tally :=
match reports_dir with
| None => {| effects := trace0; success := 0; failed := 0 |}
| Some dir =>
    let files := sorted_by String.ltb fst (glob dir (reports_pattern date_filter)) in
    match files with
    | [] => {| effects := trace0; success := 0; failed := 0 |}
    | _ => fold_left (upload_step dir) files
             {| effects := trace0; success := 0; failed := 0 |}
    end
end.

End uploader.

End AWSUploaderReports.

(** ** processors/main.py: cleanup_processed_chunks *)

Module Chunks.

(** A name that [glob.glob] leaves out unless the pattern itself starts
    with a dot. *)
Definition hidden (name : string) : bool :=
match name with
| String "." _ => true
| _ => false
end.

(** [glob.glob(str(dir / pattern))] for a pattern of one component that
    does not start with a dot: the names in [dir] that match, hidden ones
    left out. *)
Definition glob_glob {A : Type} (dir : gmap string A) (pattern : string)
  : list string :=
filter (λ name, Str.fnmatch pattern name = true ∧ hidden name = false)
       (map_to_list dir).*1.

Section cleanup.
Context {A : Type}.
(** Whether [os.remove(chunk_file)] returns; it raises otherwise. *)
Variable removable : string → bool.

(** One round of the loop, with [deleted_count]. *)
Definition remove_step (st : gmap string A * nat) (chunk_file : string)
  : gmap string A * nat :=
if removable chunk_file then (delete chunk_file st.1, S st.2) else st.

(** [cleanup_processed_chunks(config, keep_chunks)] on the entries of
    [config.PROCESSED_DIR]: the directory afterwards and the count it
    prints. *)
Definition cleanup_processed_chunks (processed_dir : gmap string A)
    (keep_chunks : bool) : gmap string A * nat :=
if keep_chunks then (processed_dir, 0%nat)
else fold_left remove_step (glob_glob processed_dir "*_chunk_*.csv")
               (processed_dir, 0%nat).

End cleanup.

End Chunks.

(** ** processors/main.py: load_raw_data *)

Module RawData.

(** The paths of [config] that the loading reads. *)
Record config : Type := {
  BIKES_JSON_PATH : string;
  TRAFFIC_JSON_PATH : string;
  WEATHER_JSON_PATH : string;
  COMPTAGES_CSV : string;
  CHANTIERS_CSV : string;
  REFERENTIEL_CSV : string
}.

Section load_raw_data.
(** [processors.utils.file_utils], which is not part of these sources: each
    helper returns or raises. *)
Variable find_json_files : string → res (list string).
Variable load_json : string → res json.
Variable load_and_combine_json_files : list string → res json.
Variable find_csv_files : string → string → res (list string).
(** [Path.parent] and [Path.exists]. *)
Variable parent : string → string.
Variable path_exists : string → bool.

(** The three lines that load one API source: what to store under its key,
    if anything. *)
Definition load_api_source (path : string) : res (option json) :=
files ← find_json_files path;
match files with
| [] => Ok None
| [file] => data ← load_json file; Ok (Some data)
| _ => data ← load_and_combine_json_files files; Ok (Some data)
end.

(** The same for one batch source, which is kept as a path. *)
Definition load_batch_source (csv pattern : string) : res (option json) :=
files ← find_csv_files (parent csv) pattern;
match files with
| file :: _ => Ok (Some (JStr file))
| [] => if path_exists csv then Ok (Some (JStr csv)) else Ok None
end.

(** [raw_data[key] = value], when there is something to store. *)
Definition store (key : string) (value : option json) (raw_data : list (string * json))
  : list (string * json) :=
match value with
| Some v => Py.dict_set key v raw_data
| None => raw_data
end.

(** The first [try] block: what was stored before a helper raises stays. *)
Definition load_api (cfg : config) (raw_data : list (string * json))
  : list (string * json) :=
match load_api_source (BIKES_JSON_PATH cfg) with
| Raise _ => raw_data
| Ok bikes =>
    let raw_data := store "bikes" bikes raw_data in
    match load_api_source (TRAFFIC_JSON_PATH cfg) with
    | Raise _ => raw_data
    | Ok traffic =>
        let raw_data := store "traffic" traffic raw_data in
        match load_api_source (WEATHER_JSON_PATH cfg) with
        | Raise _ => raw_data
        | Ok weather => store "weather" weather raw_data
        end
    end
end.

(** The second [try] block. *)
Definition load_batch (cfg : config) (raw_data : list (string * json))
  : list (string * json) :=
match load_batch_source (COMPTAGES_CSV cfg) "comptages*.csv" with
| Raise _ => raw_data
| Ok comptages =>
    let raw_data := store "comptages" comptages raw_data in
    match load_batch_source (CHANTIERS_CSV cfg) "chantiers*.csv" with
    | Raise _ => raw_data
    | Ok chantiers =>
        let raw_data := store "chantiers" chantiers raw_data in
        match load_batch_source (REFERENTIEL_CSV cfg) "referentiel*.csv" with
        | Raise _ => raw_data
        | Ok referentiel => store "referentiel" referentiel raw_data
        end
    end
end.

Definition load_raw_data_local (cfg : config) : list (string * json) :=
let raw_data :=
  [("bikes", JNull); ("traffic", JNull); ("weather", JNull);
   ("comptages", JNull); ("chantiers", JNull); ("referentiel", JNull)] in
load_batch cfg (load_api cfg raw_data).

Definition load_raw_data (cfg : config) : list (string * json) :=
load_raw_data_local cfg.

End load_raw_data.

End RawData.

(** * Vocabulary of the statements and sample data *)

(** A fresh service on a writable disk. *)
Definition svc_empty : LocalFileService.t :=
  LocalFileService.mk ∅ ∅ (λ _, true) (λ _, true).

Definition bikes_day : json := JDict [("total_stations", JNum 3)].

(** A development machine: the raw bucket is checked out next to the code. *)
Definition env_local : environment :=
  {| path_exists := λ p, String.eqb p DatabaseFactory.local_bucket;
     getenv := λ _, None;
     mongodb_service := Ok ();
     local_file_service := Ok () |}.

(** The same machine without [pymongo]. *)
Definition env_local_no_pymongo : environment :=
  {| path_exists := λ p, String.eqb p DatabaseFactory.local_bucket;
     getenv := λ _, None;
     mongodb_service := Raise ImportError;
     local_file_service := Ok () |}.

(** A deployed instance: no bucket directory. *)
Definition env_ec2 : environment :=
  {| path_exists := λ _, false;
     getenv := λ _, None;
     mongodb_service := Raise ImportError;
     local_file_service := Ok () |}.


(** Whether the range query reads a file of this name: the date in its name
    lies within the bounds. *)
Definition selects (start_date end_date name : string) : bool :=
  match LocalFileService.file_date name with
  | Some fd => LocalFileService.in_range start_date end_date fd
  | None => false
  end.

(** The entry that the range query makes of a stored record, given the date
    [fd] in the name of its file. *)
Definition entry_for (fd : string) (data : list (string * json)) : json :=
  JDict [("date", default (JStr fd) (Py.dict_lookup "date" data));
         ("metrics", default JNull (Py.dict_lookup "metrics" data))].

(** The date that an entry carries, which is its sort key. *)
Definition entry_date (x : json) : json :=
  try_except (LocalFileService.date_key x) (JStr "").

(** The file [f] is a stored record and [x] is the entry made of it. *)
Definition made_from (f : string * content) (x : json) : Prop :=
  ∃ fd data,
    LocalFileService.file_date f.1 = Some fd
    ∧ f.2 = Document (JDict data)
    ∧ x = entry_for fd data.

(** [x] is the entry of a stored file of [data_type] whose name carries a
    date within the bounds. *)
Definition entry_from (svc : LocalFileService.t)
    (data_type start_date end_date : string) (x : json) : Prop :=
  ∃ name fd data,
    LocalFileService.metrics_dir svc !! name = Some (Document (JDict data))
    ∧ Str.fnmatch (data_type +:+ "_metrics_*.json") name = true
    ∧ LocalFileService.file_date name = Some fd
    ∧ Str.le start_date fd ∧ Str.le fd end_date
    ∧ x = entry_for fd data.

Definition weather_day : json := JDict [("temp_avg", JNum 11)].

(** A metrics directory in which the record of 2024-01-01 sits in a file
    named for 2025-11-03 (a file copied forward under a new name). *)
Definition svc_renamed : LocalFileService.t :=
  LocalFileService.mk
    {[ "weather_metrics_2025-11-03.json" :=
         Document (LocalFileService.metrics_record
                     "2024-01-01T08:00:00" weather_day "weather" "2024-01-01") ]}
    ∅ (λ _, true) (λ _, true).

(** Two saves for [bikes]; the second key names its date [backup_2025-11-04],
    which gives the file name that a hand-made backup copy of the first file
    would have. *)
Definition svc_with_backup : LocalFileService.t :=
  (LocalFileService.save_metrics
     (LocalFileService.save_metrics svc_empty "2025-11-04T10:00:00" bikes_day
        "bikes" "2025-11-04").1
     "2025-11-04T10:05:00" bikes_day "bikes" "backup_2025-11-04").1.

(** Three days of weather, saved out of order. *)
Definition svc_three_days : LocalFileService.t :=
  (LocalFileService.save_metrics
     (LocalFileService.save_metrics
        (LocalFileService.save_metrics svc_empty "t1" weather_day
           "weather" "2025-11-04").1
        "t2" weather_day "weather" "2025-11-02").1
     "t3" weather_day "weather" "2025-11-09").1.








(** A stand-in for [repr]; none of the samples prints a list or a dict. *)
Definition repr_sample (v : json) : string := "...".

(** An optimizer that keeps the summary fields of [traffic] only. *)
Definition should_optimize_sample (data_type : string) (indicators : json) : bool :=
  String.eqb data_type "traffic".

Definition optimize_sample (data_type : string) (indicators : json) : json :=
  match indicators with
  | JDict d => JDict (filter (λ kv, kv.1 ≠ "metrics") d)
  | _ => indicators
  end.

Definition db_accepts_all (db : DatabaseFactory.service) (metrics : json)
    (data_type date : string) : bool := true.

Definition traffic_indicators : json :=
  JDict [("total_troncons", JNum 2);
         ("metrics",
          JList [JDict [("troncon_id", JNum 1); ("date", JStr "")];
                 JDict [("troncon_id", JNum 2); ("date", JStr "2025-01-01")]]);
         ("top_10_zones_congestionnees",
          JList [JDict [("arrondissement", JStr "12"); ("date", JStr "")];
                 JDict [("arrondissement", JStr "Unknown")];
                 JDict [("zone_fallback", JStr "Bastille"); ("date", JStr "2025-01-01")]])].

(** Bike indicators whose per-station records sit in a list that
    [export_results] does not visit. *)
Definition bikes_indicators : json :=
  JDict [("total_stations", JNum 1);
         ("stations", JList [JDict [("station_id", JNum 1); ("date", JStr "")]])].

Definition results_sample : list (string * json) :=
  [("traffic", JDict [("success", JBool true); ("indicators", traffic_indicators)]);
   ("bikes", JDict [("success", JBool true); ("indicators", bikes_indicators)]);
   ("weather", JDict [("success", JBool false); ("errors", JList [JStr "no data"])])].

(** The sample run: the development machine, run date 2025-11-04. *)
Definition export_sample
  : res (list (string * json) * list Main.event * nat) :=
  Main.export_results repr_sample should_optimize_sample optimize_sample
    db_accepts_all env_local "2025-11-05" results_sample (Some "2025-11-04").

(** The effects of one round of the export loop, taken on their own. *)
Definition item_events (oms : string → json → bool) (opt : string → json → json)
    (dbs : DatabaseFactory.service → json → string → string → bool)
    (env : environment) (db_service : option DatabaseFactory.service)
    (date : string) (item : string * json) : list Main.event :=
  match Main.export_step oms opt dbs env db_service date ([], 0%nat) item with
  | Ok st => st.1
  | Raise _ => []
  end.

(** The data type that an effect is about, if any. *)
Definition event_about (date : string) (data_type : string) (ev : Main.event) : Prop :=
  match ev with
  | Main.DbSaveMetrics _ ty _ => ty = data_type
  | Main.SaveJson _ path => path = Main.backup_path data_type date
  | _ => True
  end.

(** The traffic indicators of the sample after shaping for 2025-11-04. *)
Definition traffic_indicators_shaped : json :=
  JDict [("total_troncons", JNum 2);
         ("metrics",
          JList [JDict [("troncon_id", JNum 1); ("date", JStr "2025-11-04")];
                 JDict [("troncon_id", JNum 2); ("date", JStr "2025-01-01")]]);
         ("top_10_zones_congestionnees",
          JList [JDict [("arrondissement", JStr "12"); ("date", JStr "2025-11-04");
                        ("zone_fallback", JStr "Arrondissement 12")];
                 JDict [("arrondissement", JStr "Unknown");
                        ("zone_fallback", JStr "Unknown")];
                 JDict [("zone_fallback", JStr "Bastille"); ("date", JStr "2025-01-01")]])].

(** The effects of the sample run. *)
Definition trace_sample : list Main.event :=
  match export_sample with
  | Ok (_, trace, _) => trace
  | Raise _ => []
  end.

(** The item that the upload of one file adds to the table, if any. *)
Definition uploaded_item (put_item_ok : json → bool) (now : string)
    (now_timestamp : Z) (file : content) : option json :=
  match AWSUploader.upload_metrics_file_body put_item_ok now now_timestamp [] file with
  | Ok (items, true) => last items
  | _ => None
  end.

(** A candidate file lacks one of the three required fields. *)
Definition missing_required_field (d : list (string * json)) : Prop :=
  Py.dict_lookup "metric_type" d = None
  ∨ Py.dict_lookup "date" d = None
  ∨ Py.dict_lookup "metrics" d = None.

(** [output/metrics] with two records and, between them in name order, a
    file that holds bare indicators without the record fields. *)
Definition upload_dir : gmap string content :=
  {[ "bikes_metrics_2025-11-04.json" :=
       Document (LocalFileService.metrics_record "2025-11-04T10:00:00" bikes_day
                   "bikes" "2025-11-04");
     "traffic_metrics_2025-11-04.json" := Document traffic_indicators_shaped;
     "weather_metrics_2025-11-04.json" :=
       Document (LocalFileService.metrics_record "2025-11-04T10:00:02" weather_day
                   "weather" "2025-11-04") ]}.

Definition put_accepts_all (item : json) : bool := true.

(** Whether the character [c] occurs in [s]. *)
Fixpoint has_char (c : ascii) (s : string) : bool :=
  match s with
  | EmptyString => false
  | String c' s' => Ascii.eqb c' c || has_char c s'
  end.

(** A data type that is a plain file-name prefix: none of the characters
    that a glob pattern or a path reads specially. *)
Definition plain_type (data_type : string) : Prop :=
  has_char "*" data_type = false ∧ has_char "?" data_type = false
  ∧ has_char "[" data_type = false ∧ has_char "/" data_type = false.

(** A date that the file names can carry: no underscore and no slash. *)
Definition plain_date (date : string) : Prop :=
  has_char "_" date = false ∧ has_char "/" date = false.

(** Three days of weather with the file of 2025-11-02 overwritten by text
    that is not JSON. *)
Definition svc_damaged : LocalFileService.t :=
  LocalFileService.mk
    (<["weather_metrics_2025-11-02.json" := Invalid]>
       (LocalFileService.metrics_dir svc_three_days))
    ∅ (λ _, true) (λ _, true).

(** Three days of weather on a disk with no room left: files open, and no
    document is written out to the end. *)
Definition svc_full_disk : LocalFileService.t :=
  LocalFileService.mk (LocalFileService.metrics_dir svc_three_days) ∅
    (λ _, true) (λ _, false).

(** The files that a run asked [save_json] to write, oldest first. *)
Definition local_saves (trace : list Main.event) : list (string * json) :=
  omap (λ ev, match ev with
              | Main.SaveJson data path => Some (path, data)
              | _ => None
              end) trace.

(** The writes that the back end answered with [True]. *)
Definition accepted_writes
    (db_save_metrics : DatabaseFactory.service → json → string → string → bool)
    (db : DatabaseFactory.service) (trace : list Main.event)
  : list (string * string * json) :=
  filter (λ w, db_save_metrics db w.2 w.1.1 w.1.2 = true) (Main.db_writes trace).

(** A run inside a managed AWS runtime, which sets [AWS_EXECUTION_ENV]. *)
Definition env_lambda : environment :=
  {| path_exists := λ _, false;
     getenv := λ k, if String.eqb k "AWS_EXECUTION_ENV"
                    then Some "AWS_Lambda_python3.12" else None;
     mongodb_service := Raise ImportError;
     local_file_service := Ok () |}.

(** A development machine whose MongoDB cannot be reached, and the sample
    run on it. *)
Definition env_mongo_down : environment :=
  {| path_exists := λ p, String.eqb p DatabaseFactory.local_bucket;
     getenv := λ _, None;
     mongodb_service := Raise OSError;
     local_file_service := Ok () |}.

(** The items that a trace of the report upload put in the table, and the
    JSON objects it put in the bucket, oldest first. *)
Definition items_put (trace : list AWSUploaderReports.event) : list json :=
  omap (λ ev, match ev with
              | AWSUploaderReports.PutItem item => Some item
              | _ => None
              end) trace.

Definition objects_put (trace : list AWSUploaderReports.event)
  : list (string * json) :=
  omap (λ ev, match ev with
              | AWSUploaderReports.PutObject key data => Some (key, data)
              | _ => None
              end) trace.

(** The report files that [upload_all_reports] goes through. *)
Definition report_candidates (reports_dir : gmap string content)
    (date_filter : option string) : list (string * content) :=
  sorted_by String.ltb fst
    (glob reports_dir (AWSUploaderReports.reports_pattern date_filter)).

(** Two saved reports, and a bucket that refuses the second. *)
Definition reports_two_days : gmap string content :=
  LocalFileService.reports_dir
    (LocalFileService.save_report
       (LocalFileService.save_report svc_empty "t1" bikes_day "2025-11-03").1
       "t2" weather_day "2025-11-04").1.

Definition refuses_fourth (key : string) : bool :=
  negb (String.eqb key "reports/daily_report_2025-11-04.json").

(** A name that the cleanup looks for: it matches the chunk pattern and is
    not hidden. *)
Definition is_chunk (name : string) : bool :=
  Str.fnmatch "*_chunk_*.csv" name && negb (Chunks.hidden name).

(** [raw_data] before anything is loaded. *)
Definition nothing_loaded : list (string * json) :=
  [("bikes", JNull); ("traffic", JNull); ("weather", JNull);
   ("comptages", JNull); ("chantiers", JNull); ("referentiel", JNull)].

(** A processed directory with two chunks, one of them write-protected, a
    hidden chunk and a result file. *)
Definition processed_sample : gmap string unit :=
  list_to_map [("comptages_chunk_1.csv", ()); ("comptages_chunk_2.csv", ());
               (".comptages_chunk_3.csv", ()); ("comptages_clean.csv", ())].

Definition not_the_second (name : string) : bool :=
  negb (String.eqb name "comptages_chunk_2.csv").

(** * Properties *)

(** ** The exception monad *)

Lemma bind_Ok {A B : Type} (m : res A) (f : A → res B) (b : B) :
  m ≫= f = Ok b ↔ ∃ a, m = Ok a ∧ f a = Ok b.
Proof.
  destruct m as [a|e]; simpl; split.
  - intros H. exists a. split; [reflexivity | exact H].
  - intros (a' & Ha & H). injection Ha as ->. exact H.
  - intros H. discriminate H.
  - intros (a' & Ha & _). discriminate Ha.
Qed.

Lemma mapM_Ok_Forall2 {A B : Type} (f : A → res B) (l : list A) (k : list B) :
  mapM f l = Ok k ↔ Forall2 (λ x y, f x = Ok y) l k.
Proof.
  revert k. induction l as [|x l IH]; intros k; simpl.
  - split.
    + intros H. injection H as <-. constructor.
    + intros H. inversion H. reflexivity.
  - split.
    + intros H. apply bind_Ok in H as (y & Hy & H).
      apply bind_Ok in H as (k' & Hk' & H). injection H as <-.
      constructor; [exact Hy | apply IH, Hk'].
    + intros H. inversion H as [|? y ? k' Hy Hk']; subst.
      rewrite Hy. simpl. apply IH in Hk'. rewrite Hk'. reflexivity.
Qed.

Lemma for_each_app {S A : Type} (body : S → A → res S) (xs ys : list A) (s : S) :
  for_each body (xs ++ ys) s = for_each body xs s ≫= for_each body ys.
Proof.
  revert s. induction xs as [|x xs IH]; intros s; simpl; [reflexivity|].
  destruct (body s x) as [s'|e]; simpl; [apply IH | reflexivity].
Qed.

(** ** Dictionaries *)

Lemma dict_lookup_set_eq (k : string) (v : json) (d : list (string * json)) :
  Py.dict_lookup k (Py.dict_set k v d) = Some v.
Proof.
  induction d as [|[k' v'] d IH]; simpl.
  - rewrite String.eqb_refl. reflexivity.
  - destruct (String.eqb k' k) eqn:E; simpl; rewrite E; [reflexivity | exact IH].
Qed.

Lemma dict_lookup_set_ne (k k' : string) (v : json) (d : list (string * json)) :
  k ≠ k' → Py.dict_lookup k' (Py.dict_set k v d) = Py.dict_lookup k' d.
Proof.
  intros Hne. induction d as [|[k0 v0] d IH]; simpl.
  - apply String.eqb_neq in Hne. rewrite Hne. reflexivity.
  - destruct (String.eqb k0 k) eqn:E; simpl.
    + apply String.eqb_eq in E. subst k0.
      apply String.eqb_neq in Hne. rewrite Hne. reflexivity.
    + destruct (String.eqb k0 k'); [reflexivity | exact IH].
Qed.



(** ** Local files: save, load *)

Section local_file_service.
Import LocalFileService.

Lemma save_metrics_true (svc svc' : t) (now : string) (m : json) (ty d : string) :
  save_metrics svc now m ty d = (svc', true) →
  writable svc (_get_metrics_path ty d) = true
  ∧ svc' = mk (<[_get_metrics_path ty d := Document (metrics_record now m ty d)]>
                 (metrics_dir svc))
              (reports_dir svc) (writable svc) (dumpable svc).
Proof.
  unfold save_metrics, save_metrics_body.
  destruct (writable svc (_get_metrics_path ty d)); [| discriminate].
  destruct (dumpable svc (metrics_record now m ty d)); [| discriminate].
  simpl. intros [= <-]. split; reflexivity.
Qed.

Lemma load_after_save (svc svc' : t) (now : string) (m : json) (ty d : string) :
  save_metrics svc now m ty d = (svc', true) → load_metrics svc' ty d = m.
Proof.
  intros H. apply save_metrics_true in H as [_ ->].
  unfold load_metrics, load_metrics_body. simpl.
  rewrite lookup_insert_eq. reflexivity.
Qed.

Lemma one_file_per_name (dir : gmap string content) (p : string) (c : content) :
  dir !! p = Some c →
  filter (λ f : string * content, f.1 = p) (map_to_list dir) = [(p, c)].
Proof.
  intros Hp.
  assert (Hnd : NoDup (map_to_list dir).*1) by apply NoDup_fst_map_to_list.
  assert (Hin : (p, c) ∈ map_to_list dir) by (apply elem_of_map_to_list; exact Hp).
  induction (map_to_list dir) as [|[q c'] l IH]; [inversion Hin|].
  simpl in Hnd. apply NoDup_cons in Hnd as [Hq Hnd].
  rewrite filter_cons. simpl. destruct (decide (q = p)) as [->|Hne].
  - apply elem_of_cons in Hin as [Heq|Hin].
    + injection Heq as <-. f_equal. clear IH Hnd.
      induction l as [|[q c''] l IHl]; [reflexivity|].
      rewrite filter_cons. simpl. destruct (decide (q = p)) as [->|Hne].
      * exfalso. apply Hq. simpl. left.
      * apply IHl. intros Hin. apply Hq. simpl. right. exact Hin.
    + exfalso. apply Hq. apply list_elem_of_fmap. exists (p, c). split; [reflexivity|exact Hin].
  - apply elem_of_cons in Hin as [Heq|Hin].
    + injection Heq as Heq _. congruence.
    + apply IH; assumption.
Qed.

(** C1. After a successful [save_metrics m t d], [load_metrics t d] returns
    [m]; a second successful save under the same key replaces the record:
    [load_metrics] then returns the metrics of the second write, the number of
    stored files is unchanged, and the key has exactly one stored record (the
    one written last) after each save. *)
Theorem save_metrics_overwrites (svc svc1 svc2 : t) (now1 now2 : string)
    (m1 m2 : json) (ty d : string) :
  save_metrics svc now1 m1 ty d = (svc1, true) →
  save_metrics svc1 now2 m2 ty d = (svc2, true) →
  load_metrics svc1 ty d = m1
  ∧ records_of svc1 ty d
    = [(_get_metrics_path ty d, Document (metrics_record now1 m1 ty d))]
  ∧ load_metrics svc2 ty d = m2
  ∧ records_of svc2 ty d
    = [(_get_metrics_path ty d, Document (metrics_record now2 m2 ty d))]
  ∧ size (metrics_dir svc2) = size (metrics_dir svc1).
Proof.
  intros H1 H2.
  pose proof (load_after_save _ _ _ _ _ _ H1) as L1.
  pose proof (load_after_save _ _ _ _ _ _ H2) as L2.
  apply save_metrics_true in H1 as [_ ->].
  apply save_metrics_true in H2 as [_ ->].
  simpl in *. repeat split; try assumption.
  - apply one_file_per_name. apply lookup_insert_eq.
  - apply one_file_per_name. apply lookup_insert_eq.
  - apply map_size_insert_Some. rewrite lookup_insert_eq. eauto.
Qed.

Lemma save_metrics_overwrites_witness :
  load_metrics
    (save_metrics svc_empty "2025-11-04T10:00:00" bikes_day "bikes" "2025-11-04").1
    "bikes" "2025-11-04" = bikes_day
  ∧ load_metrics
      (save_metrics
         (save_metrics svc_empty "2025-11-04T10:00:00" bikes_day "bikes" "2025-11-04").1
         "2025-11-04T11:00:00" (JDict []) "bikes" "2025-11-04").1
      "bikes" "2025-11-04" = JDict [].
Proof.
  pose proof (save_metrics_overwrites svc_empty _ _ "2025-11-04T10:00:00"
                "2025-11-04T11:00:00" bikes_day (JDict []) "bikes" "2025-11-04"
                eq_refl eq_refl) as (H1 & _ & H2 & _).
  split; [exact H1 | exact H2].
Defined.

(** C8. For a key with no stored file, [load_metrics] and [load_report]
    return [None]; their bodies take the not-found branch and raise nothing. *)
Theorem load_missing_is_none (svc : t) (ty d : string) :
  (metrics_dir svc !! _get_metrics_path ty d = None →
   load_metrics_body svc ty d = Ok JNull ∧ load_metrics svc ty d = JNull)
  ∧ (reports_dir svc !! _get_report_path d = None →
     load_report_body svc d = Ok JNull ∧ load_report svc d = JNull).
Proof.
  unfold load_metrics, load_metrics_body, load_report, load_report_body.
  split; intros ->; split; reflexivity.
Qed.

End local_file_service.

Lemma load_missing_is_none_witness :
  LocalFileService.load_metrics svc_empty "weather" "2025-11-04" = JNull
  ∧ LocalFileService.load_report svc_empty "2025-11-04" = JNull.
Proof.
  destruct (load_missing_is_none svc_empty "weather" "2025-11-04") as [Hm Hr].
  split; [apply Hm | apply Hr]; reflexivity.
Defined.

(** ** Backend selection *)

Section database_factory.
Import DatabaseFactory.

Lemma get_database_type_spec (env : environment) :
  get_database_type env
  = if path_exists env local_bucket then "mongodb" else "local_files".
Proof. unfold get_database_type. destruct (path_exists env local_bucket); reflexivity. Qed.

Lemma get_database_service_kind (env : environment) (s : service) :
  get_database_service env = Ok s → kind s = get_database_type env.
Proof.
  unfold get_database_service, get_database_type.
  destruct (path_exists env local_bucket); simpl.
  - destruct (mongodb_service env); simpl; [intros [= <-]; reflexivity | discriminate].
  - destruct (local_file_service env); simpl; [intros [= <-]; reflexivity | discriminate].
Qed.

(** C3. The selection depends on the surroundings only through the presence
    of the sentinel directory: two runs that agree on it report the same
    kind and, when both construct a service, construct the same class;
    [get_database_type] names the class that [get_database_service]
    constructs, [mongodb] when the directory exists and [local_files]
    otherwise. The factory does construct that class: it returns a
    [MongoDBService] when the directory exists and importing and
    constructing it returns, a [LocalFileService] when the directory is
    absent and importing and constructing that returns, and it raises only
    what the selected import or constructor raises. *)
Theorem backend_selection_deterministic (env1 env2 : environment) :
  path_exists env1 local_bucket = path_exists env2 local_bucket →
  get_database_type env1 = get_database_type env2
  ∧ get_database_type env1
    = (if path_exists env1 local_bucket then "mongodb" else "local_files")
  ∧ (∀ s1, get_database_service env1 = Ok s1 → kind s1 = get_database_type env1)
  ∧ (∀ s1 s2, get_database_service env1 = Ok s1 →
              get_database_service env2 = Ok s2 → s1 = s2)
  ∧ (path_exists env1 local_bucket = true → mongodb_service env1 = Ok () →
     get_database_service env1 = Ok MongoDBService
     ∧ kind MongoDBService = get_database_type env1)
  ∧ (path_exists env1 local_bucket = false → local_file_service env1 = Ok () →
     get_database_service env1 = Ok LocalFileService
     ∧ kind LocalFileService = get_database_type env1)
  ∧ (∀ e, get_database_service env1 = Raise e
          ↔ (if path_exists env1 local_bucket
             then mongodb_service env1 else local_file_service env1) = Raise e).
Proof.
  intros Hsame. split; [| split; [| split; [| split; [| split; [| split]]]]].
  - rewrite !get_database_type_spec, Hsame. reflexivity.
  - apply get_database_type_spec.
  - apply get_database_service_kind.
  - intros s1 s2 H1 H2.
    apply get_database_service_kind in H1, H2.
    rewrite !get_database_type_spec, <- Hsame in *.
    destruct s1, s2, (path_exists env1 local_bucket); simpl in *;
      (reflexivity || discriminate).
  - intros Hdir Hsvc. unfold get_database_service, get_database_type.
    rewrite Hdir, Hsvc. split; reflexivity.
  - intros Hdir Hsvc. unfold get_database_service, get_database_type.
    rewrite Hdir, Hsvc. split; reflexivity.
  - intros e. unfold get_database_service.
    destruct (path_exists env1 local_bucket); simpl.
    + destruct (mongodb_service env1); simpl; split; congruence.
    + destruct (local_file_service env1); simpl; split; congruence.
Qed.

Lemma backend_selection_deterministic_witness :
  get_database_type env_local = get_database_type env_local_no_pymongo
  ∧ get_database_type env_local = "mongodb"
  ∧ get_database_service env_local = Ok MongoDBService
  ∧ get_database_service env_local_no_pymongo = Raise ImportError
  ∧ get_database_type env_ec2 = "local_files"
  ∧ get_database_service env_ec2 = Ok LocalFileService.
Proof.
  destruct (backend_selection_deterministic env_local env_local_no_pymongo eq_refl)
    as (H1 & H2 & _ & _ & Hmongo & _ & _).
  destruct (backend_selection_deterministic env_local_no_pymongo env_local eq_refl)
    as (_ & _ & _ & _ & _ & _ & Hraise).
  destruct (backend_selection_deterministic env_ec2 env_ec2 eq_refl)
    as (_ & H2' & _ & _ & _ & Hlocal & _).
  split; [exact H1|]. split; [exact H2|].
  split; [apply (Hmongo eq_refl eq_refl)|].
  split; [apply (Hraise ImportError); reflexivity|].
  split; [exact H2'|].
  apply (Hlocal eq_refl eq_refl).
Defined.

Example selection_on_ec2 :
  get_database_type env_ec2 = "local_files"
  ∧ get_database_service env_ec2 = Ok LocalFileService.
Proof. split; reflexivity. Qed.

End database_factory.

(** ** Sorting *)

Section sorting_facts.
Context {K A : Type}.
Variable lt : K → K → res bool.

Lemma insert_by_Permutation (x : K * A) (l r : list (K * A)) :
  insert_by lt x l = Ok r → r ≡ₚ x :: l.
Proof.
  revert r. induction l as [|y l IH]; intros r; simpl.
  - intros [= <-]. reflexivity.
  - destruct (lt y.1 x.1) as [[]|e]; simpl; [| intros [= <-]; reflexivity | discriminate].
    intros H. apply bind_Ok in H as (r' & Hr' & [= <-]).
    rewrite (IH _ Hr'). apply Permutation_swap.
Qed.

Lemma insert_by_HdRel (a : K) (x : K * A) (l r : list (K * A)) :
  insert_by lt x l = Ok r →
  ascending lt a x.1 → HdRel (ascending lt) a l.*1 → HdRel (ascending lt) a r.*1.
Proof.
  destruct l as [|y l]; simpl.
  - intros [= <-] Hx _. constructor. exact Hx.
  - destruct (lt y.1 x.1) as [[]|e]; simpl; [| intros [= <-] | discriminate].
    + intros H. apply bind_Ok in H as (r' & _ & [= <-]).
      intros _ Hy. inversion Hy; subst. constructor. assumption.
    + intros Hx _. constructor. exact Hx.
Qed.

Lemma insert_by_Sorted (x : K * A) (l r : list (K * A)) :
  insert_by lt x l = Ok r →
  Sorted (ascending lt) l.*1 → Sorted (ascending lt) r.*1.
Proof.
  revert r. induction l as [|y l IH]; intros r; simpl.
  - intros [= <-] _. repeat constructor.
  - destruct (lt y.1 x.1) as [[]|e] eqn:E; simpl; [| intros [= <-] | discriminate].
    + intros H Hs. apply bind_Ok in H as (r' & Hr' & [= <-]).
      apply Sorted_inv in Hs as [Hs Hhd]. simpl. constructor.
      * apply IH; assumption.
      * apply (insert_by_HdRel _ x l); [exact Hr' | left; exact E | exact Hhd].
    + intros Hs. simpl. constructor; [exact Hs|]. constructor. right. exact E.
Qed.

Lemma sort_pairs_spec (l r : list (K * A)) :
  sort_pairs lt l = Ok r → r ≡ₚ l ∧ Sorted (ascending lt) r.*1.
Proof.
  revert r. induction l as [|x l IH]; intros r; simpl.
  - intros [= <-]. split; [reflexivity | constructor].
  - intros H. apply bind_Ok in H as (s & Hs & H).
    destruct (IH _ Hs) as [Hp Hsorted]. split.
    + rewrite (insert_by_Permutation _ _ _ H), Hp. reflexivity.
    + apply (insert_by_Sorted x s); assumption.
Qed.

(** What a successful [sort(key=...)] returns: the same elements, with keys
    in ascending order. *)
Lemma sort_by_spec (key : A → res K) (l r : list A) :
  sort_by lt key l = Ok r →
  r ≡ₚ l ∧ ∃ keys, Forall2 (λ x k, key x = Ok k) r keys ∧ Sorted (ascending lt) keys.
Proof.
  unfold sort_by. intros H.
  apply bind_Ok in H as (keys & Hkeys & H).
  apply bind_Ok in H as (s & Hs & [= <-]).
  apply mapM_Ok_Forall2 in Hkeys.
  destruct (sort_pairs_spec _ _ Hs) as [Hp Hsorted].
  assert (Hlen : length keys = length l)
    by (symmetry; eapply Forall2_length; exact Hkeys).
  split.
  - change (map snd s) with (s.*2). rewrite Hp. rewrite snd_zip; [reflexivity | lia].
  - exists s.*1. split; [| exact Hsorted].
    assert (Hall : Forall (λ p : K * A, key p.2 = Ok p.1) (zip keys l)).
    { clear -Hkeys. induction Hkeys; simpl; constructor; assumption. }
    rewrite <- Hp in Hall. clear -Hall.
    induction Hall; simpl; constructor; assumption.
Qed.

(** Without keys or with a single one nothing is compared. *)
Lemma sort_by_nil (key : A → res K) : sort_by lt key [] = Ok [].
Proof. reflexivity. Qed.

End sorting_facts.

Section sorting_total_facts.
Context {K A : Type}.
Variable ltb : K → K → bool.
Variable key : A → K.

Lemma insert_sorted_Permutation (x : A) (l : list A) :
  insert_sorted ltb key x l ≡ₚ x :: l.
Proof.
  induction l as [|y l IH]; simpl; [reflexivity|].
  destruct (ltb (key y) (key x)); [| reflexivity].
  rewrite IH. apply Permutation_swap.
Qed.

Lemma insert_sorted_HdRel (a x : A) (l : list A) :
  in_order ltb key a x → HdRel (in_order ltb key) a l →
  HdRel (in_order ltb key) a (insert_sorted ltb key x l).
Proof.
  destruct l as [|y l]; simpl; intros Hx Hl.
  - constructor. exact Hx.
  - destruct (ltb (key y) (key x)); constructor; [inversion Hl; assumption | exact Hx].
Qed.

Lemma insert_sorted_Sorted (x : A) (l : list A) :
  Sorted (in_order ltb key) l → Sorted (in_order ltb key) (insert_sorted ltb key x l).
Proof.
  induction l as [|y l IH]; simpl; intros Hs.
  - repeat constructor.
  - destruct (ltb (key y) (key x)) eqn:E.
    + apply Sorted_inv in Hs as [Hs Hhd]. constructor.
      * apply IH. exact Hs.
      * apply insert_sorted_HdRel; [left; exact E | exact Hhd].
    + constructor; [exact Hs|]. constructor. right. exact E.
Qed.

Lemma sorted_by_Permutation (l : list A) : sorted_by ltb key l ≡ₚ l.
Proof.
  induction l as [|x l IH]; simpl; [reflexivity|].
  rewrite insert_sorted_Permutation, IH. reflexivity.
Qed.

Lemma sorted_by_Sorted (l : list A) : Sorted (in_order ltb key) (sorted_by ltb key l).
Proof.
  induction l as [|x l IH]; simpl; [constructor|].
  apply insert_sorted_Sorted. exact IH.
Qed.

End sorting_total_facts.

(** ** The order of strings *)

Lemma string_compare_OT (a b : string) :
  String.compare a b = OrdersEx.String_as_OT.compare a b.
Proof.
  revert b. induction a as [|c a IH]; intros [|c' b]; reflexivity.
Qed.

Lemma string_compare_refl (a : string) : String.compare a a = Eq.
Proof.
  rewrite string_compare_OT.
  destruct (OrdersEx.String_as_OT.compare_spec a a) as [_|H|H];
    [reflexivity | |]; exfalso; revert H; apply irreflexivity; apply _.
Qed.

Lemma string_lt_trans (a b c : string) :
  String.compare a b = Lt → String.compare b c = Lt → String.compare a c = Lt.
Proof.
  rewrite !string_compare_OT. apply OrdersEx.String_as_OT.lt_strorder.
Qed.

Lemma string_leb_refl (a : string) : String.leb a a = true.
Proof. unfold String.leb. rewrite string_compare_refl. reflexivity. Qed.

Lemma string_leb_trans (a b c : string) :
  String.leb a b = true → String.leb b c = true → String.leb a c = true.
Proof.
  unfold String.leb.
  destruct (String.compare a b) eqn:Hab; [| |discriminate]; intros _;
  destruct (String.compare b c) eqn:Hbc; [| |discriminate| | |discriminate]; intros _.
  - apply String.compare_eq_iff in Hab, Hbc. subst. rewrite string_compare_refl. reflexivity.
  - apply String.compare_eq_iff in Hab. subst. rewrite Hbc. reflexivity.
  - apply String.compare_eq_iff in Hbc. subst. rewrite Hab. reflexivity.
  - rewrite (string_lt_trans _ _ _ Hab Hbc). reflexivity.
Qed.

Global Instance str_le_trans : Transitive Str.le.
Proof. intros a b c. apply string_leb_trans. Qed.

Lemma string_in_order_le (a b : string) :
  String.ltb a b = true ∨ String.ltb b a = false → Str.le a b.
Proof.
  unfold Str.le, String.ltb, String.leb. rewrite (String.compare_antisym a b).
  destruct (String.compare b a); simpl; intros [H|H]; (reflexivity || discriminate).
Qed.

Lemma str_sort_Permutation (l : list string) : Str.sort l ≡ₚ l.
Proof. apply sorted_by_Permutation. Qed.

Lemma str_sort_Sorted (l : list string) : StronglySorted Str.le (Str.sort l).
Proof.
  apply (Sorted_StronglySorted Str.le). unfold Str.sort.
  assert (Hs := sorted_by_Sorted String.ltb id l).
  induction Hs as [|x r Hr IH Hhd]; constructor; [exact IH|].
  destruct Hhd as [|y r' Hxy]; constructor. apply string_in_order_le, Hxy.
Qed.

Lemma ascending_str (a b : string) :
  ascending Py.lt (JStr a) (JStr b) → Str.le a b.
Proof.
  unfold ascending. simpl. intros [[= H]|[= H]]; apply string_in_order_le; auto.
Qed.

(** ** Local files: range queries and listings *)

Section queries.
Import LocalFileService.

Lemma glob_elem (dir : gmap string content) (pattern name : string) (c : content) :
  (name, c) ∈ glob dir pattern ↔ dir !! name = Some c ∧ Str.fnmatch pattern name = true.
Proof.
  unfold glob. rewrite list_elem_of_filter, elem_of_map_to_list. simpl. tauto.
Qed.

Lemma in_range_le (s e fd : string) :
  in_range s e fd = true ↔ Str.le s fd ∧ Str.le fd e.
Proof. unfold in_range, Str.le. apply andb_true_iff. Qed.

Lemma get_Ok (v x : json) (k : string) (dflt : json) :
  Py.get v k dflt = Ok x →
  ∃ d, v = JDict d ∧ x = default dflt (Py.dict_lookup k d).
Proof.
  destruct v; simpl; try discriminate.
  intros [= <-]. eexists. split; [reflexivity|].
  destruct (Py.dict_lookup k d); reflexivity.
Qed.

Lemma query_step_selected (s e : string) (acc r : list json) (f : string * content) :
  query_step s e acc f = Ok r →
  if selects s e f.1 then ∃ x, made_from f x ∧ r = acc ++ [x] else r = acc.
Proof.
  unfold query_step, selects, made_from.
  destruct (file_date f.1) as [fd|]; [| intros [= <-]; reflexivity].
  destruct (in_range s e fd); [| intros [= <-]; reflexivity].
  intros H. apply bind_Ok in H as (data & Hload & H).
  apply bind_Ok in H as (date & Hdate & H).
  apply bind_Ok in H as (metrics & Hmetrics & [= <-]).
  apply get_Ok in Hdate as (d & -> & ->).
  apply get_Ok in Hmetrics as (d' & [= <-] & ->).
  destruct f as [name [|data]]; simpl in *; [discriminate|].
  injection Hload as ->.
  eexists. split; [| reflexivity]. exists fd, d. repeat split.
Qed.

Lemma query_loop (s e : string) (files : list (string * content)) (acc r : list json) :
  for_each (query_step s e) files acc = Ok r →
  ∃ es, r = acc ++ es
        ∧ Forall2 made_from (filter (λ f, selects s e f.1 = true) files) es.
Proof.
  revert acc. induction files as [|f files IH]; intros acc; simpl.
  - intros [= <-]. exists []. rewrite app_nil_r. split; [reflexivity | constructor].
  - intros H. apply bind_Ok in H as (acc' & Hstep & H).
    apply IH in H as (es & -> & Hes).
    apply query_step_selected in Hstep. rewrite filter_cons.
    destruct (selects s e f.1); simpl.
    + destruct Hstep as (x & Hx & ->). exists (x :: es).
      rewrite <- app_assoc. split; [reflexivity|].
      destruct (decide (true = true)); [|congruence]. constructor; assumption.
    + subst acc'. exists es. split; [reflexivity|].
      destruct (decide (false = true)); [discriminate | exact Hes].
Qed.

Lemma entry_date_for (fd : string) (data : list (string * json)) :
  entry_date (entry_for fd data) = default (JStr fd) (Py.dict_lookup "date" data).
Proof. reflexivity. Qed.

Lemma date_key_made_from (f : string * content) (x : json) :
  made_from f x → date_key x = Ok (entry_date x).
Proof. intros (fd & data & _ & _ & ->). reflexivity. Qed.

(** What a range query that raised nothing returns. *)
Lemma query_body_spec (svc : t) (ty s e : string) (r : list json) :
  query_metrics_by_date_range_body svc ty s e = Ok r →
  ∃ es, Forall2 made_from
          (filter (λ f, selects s e f.1 = true)
                  (glob (metrics_dir svc) (ty +:+ "_metrics_*.json"))) es
        ∧ r ≡ₚ es
        ∧ Sorted (ascending Py.lt) (entry_date <$> r).
Proof.
  unfold query_metrics_by_date_range_body. intros H.
  apply bind_Ok in H as (rs & Hloop & Hsort).
  apply query_loop in Hloop as (es & -> & Hes). simpl in *.
  apply sort_by_spec in Hsort as (Hperm & keys & Hkeys & Hsorted).
  exists es. split; [exact Hes|]. split; [exact Hperm|].
  assert (Hmade : Forall (λ x, date_key x = Ok (entry_date x)) r).
  { rewrite Hperm. clear -Hes. induction Hes as [|f x fs xs Hfx _ IH]; constructor.
    - eapply date_key_made_from, Hfx.
    - exact IH. }
  assert (keys = entry_date <$> r) as <-; [| exact Hsorted].
  clear -Hkeys Hmade. induction Hkeys as [|x k r keys Hk _ IH]; [reflexivity|].
  apply Forall_cons in Hmade as [Hx Hmade]. simpl. f_equal.
  - rewrite Hx in Hk. injection Hk as <-. reflexivity.
  - apply IH, Hmade.
Qed.

Lemma made_from_selected (svc : t) (ty s e : string) (f : string * content) (x : json) :
  f ∈ filter (λ f, selects s e f.1 = true)
             (glob (metrics_dir svc) (ty +:+ "_metrics_*.json")) →
  made_from f x → entry_from svc ty s e x.
Proof.
  rewrite list_elem_of_filter. intros [Hsel Hglob] (fd & data & Hfd & Hc & ->).
  destruct f as [name c]; simpl in *. subst c.
  apply glob_elem in Hglob as [Hdir Hmatch].
  unfold selects in Hsel. rewrite Hfd in Hsel. apply in_range_le in Hsel as [Hs He].
  exists name, fd, data. repeat split; assumption.
Qed.

Lemma Forall2_right_from {A B : Type} (P : A → B → Prop) (Q : B → Prop)
    (l : list A) (k : list B) :
  Forall2 P l k → (∀ a b, a ∈ l → P a b → Q b) → Forall Q k.
Proof.
  intros H HQ. induction H as [|a b l k Hab _ IH]; constructor.
  - apply (HQ a); [left | exact Hab].
  - apply IH. intros a' b' Hin. apply HQ. right. exact Hin.
Qed.

Lemma query_entries_from (svc : t) (ty s e : string) :
  Forall (entry_from svc ty s e) (query_metrics_by_date_range svc ty s e).
Proof.
  unfold query_metrics_by_date_range.
  destruct (query_metrics_by_date_range_body svc ty s e) as [r|] eqn:H; simpl;
    [| constructor].
  apply query_body_spec in H as (es & Hes & Hperm & _).
  rewrite Hperm. eapply Forall2_right_from; [exact Hes|].
  intros f x. apply made_from_selected.
Qed.

Lemma query_sorted (svc : t) (ty s e : string) :
  Sorted (ascending Py.lt) (entry_date <$> query_metrics_by_date_range svc ty s e).
Proof.
  unfold query_metrics_by_date_range.
  destruct (query_metrics_by_date_range_body svc ty s e) as [r|] eqn:H; simpl;
    [| constructor].
  apply query_body_spec in H as (_ & _ & _ & Hsorted). exact Hsorted.
Qed.

Lemma query_none_selected (svc : t) (ty s e : string) :
  (∀ name c, metrics_dir svc !! name = Some c →
             Str.fnmatch (ty +:+ "_metrics_*.json") name = true →
             selects s e name = false) →
  query_metrics_by_date_range svc ty s e = [].
Proof.
  intros Hnone.
  pose proof (query_entries_from svc ty s e) as Hfrom.
  destruct (query_metrics_by_date_range svc ty s e) as [|x r]; [reflexivity|].
  apply Forall_cons in Hfrom as [(name & fd & data & Hdir & Hmatch & Hfd & Hs & He & _) _].
  specialize (Hnone _ _ Hdir Hmatch). unfold selects in Hnone. rewrite Hfd in Hnone.
  assert (in_range s e fd = true) by (apply in_range_le; split; assumption).
  congruence.
Qed.

End queries.

Section query_properties.
Import LocalFileService.

Lemma Forall2_elem_of_l {A B : Type} (P : A → B → Prop) (l : list A) (k : list B)
    (a : A) :
  Forall2 P l k → a ∈ l → ∃ b, b ∈ k ∧ P a b.
Proof.
  intros H. induction H as [|a' b l k Hab _ IH]; intros Hin; [inversion Hin|].
  apply elem_of_cons in Hin as [->|Hin].
  - exists b. split; [left | exact Hab].
  - destruct (IH Hin) as (b' & Hb' & HP). exists b'. split; [right; exact Hb' | exact HP].
Qed.

Lemma string_dates (P : string → Prop) (r : list json) :
  Forall (λ x, ∃ d, entry_date x = JStr d ∧ P d) r →
  ∃ ds, entry_date <$> r = JStr <$> ds ∧ Forall P ds.
Proof.
  induction 1 as [|x r (d & Hd & HP) _ (ds & Hds & HPs)].
  - exists []. split; [reflexivity | constructor].
  - exists (d :: ds). rewrite !fmap_cons, Hd, Hds. split; [reflexivity|].
    constructor; assumption.
Qed.

Lemma sorted_string_dates (ds : list string) :
  Sorted (ascending Py.lt) (JStr <$> ds) → StronglySorted Str.le ds.
Proof.
  intros Hs. apply (Sorted_StronglySorted Str.le).
  induction ds as [|d ds IH]; [constructor|].
  simpl in Hs. apply Sorted_inv in Hs as [Hs Hhd]. constructor; [apply IH, Hs|].
  destruct ds as [|d' ds]; constructor.
  simpl in Hhd. apply HdRel_inv in Hhd. apply ascending_str, Hhd.
Qed.

(** C6, as the code has it. The result of a range query is sorted ascending
    by the date that the entries carry; every entry is made from a stored
    file of the data type whose filename date lies within the bounds; the
    result is empty when no stored file matches; and when the [date] field of
    every stored record, if any, equals the date in the name of its file, the
    dates of the entries are strings in ascending order that all lie within
    the bounds. *)
Theorem query_sorted_and_selected_by_filename (svc : t) (ty s e : string) :
  Sorted (ascending Py.lt) (entry_date <$> query_metrics_by_date_range svc ty s e)
  ∧ Forall (entry_from svc ty s e) (query_metrics_by_date_range svc ty s e)
  ∧ ((∀ name c, metrics_dir svc !! name = Some c →
                Str.fnmatch (ty +:+ "_metrics_*.json") name = true →
                selects s e name = false) →
     query_metrics_by_date_range svc ty s e = [])
  ∧ ((∀ name data fd d, metrics_dir svc !! name = Some (Document (JDict data)) →
                        file_date name = Some fd →
                        Py.dict_lookup "date" data = Some d → d = JStr fd) →
     ∃ ds, entry_date <$> query_metrics_by_date_range svc ty s e = JStr <$> ds
           ∧ StronglySorted Str.le ds
           ∧ Forall (λ d, Str.le s d ∧ Str.le d e) ds).
Proof.
  split; [apply query_sorted|]. split; [apply query_entries_from|].
  split; [apply query_none_selected|].
  intros Hagree.
  destruct (string_dates (λ d, Str.le s d ∧ Str.le d e)
              (query_metrics_by_date_range svc ty s e)) as (ds & Hds & Hin).
  { eapply Forall_impl; [apply query_entries_from|].
    intros x (name & fd & data & Hdir & _ & Hfd & Hs & He & ->).
    exists fd. rewrite entry_date_for. split; [| split; assumption].
    destruct (Py.dict_lookup "date" data) as [d|] eqn:Hd; simpl; [| reflexivity].
    apply (Hagree _ _ _ _ Hdir Hfd Hd). }
  exists ds. split; [exact Hds|]. split; [| exact Hin].
  apply sorted_string_dates. rewrite <- Hds. apply query_sorted.
Qed.

(** C6, counterexample. With bounds 2025-11-01 ≤ 2025-11-05, a stored file
    named for 2025-11-03 whose record is dated 2024-01-01 yields an entry
    dated 2024-01-01, which is below the lower bound. *)
Lemma query_entry_date_outside_bounds :
  query_metrics_by_date_range svc_renamed "weather" "2025-11-01" "2025-11-05"
  = [JDict [("date", JStr "2024-01-01"); ("metrics", weather_day)]]
  ∧ Str.le "2025-11-01" "2025-11-05"
  ∧ ¬ Forall (λ x, ∃ d, entry_date x = JStr d
                        ∧ Str.le "2025-11-01" d ∧ Str.le d "2025-11-05")
        (query_metrics_by_date_range svc_renamed "weather" "2025-11-01" "2025-11-05").
Proof.
  split; [vm_compute; reflexivity|]. split; [reflexivity|].
  intros H. apply Forall_cons in H as [(d & Hd & Hlo & _) _].
  vm_compute in Hd. injection Hd as <-. discriminate Hlo.
Qed.

Lemma query_sorted_and_selected_by_filename_witness :
  query_metrics_by_date_range svc_three_days "weather" "2025-11-01" "2025-11-05"
  = [JDict [("date", JStr "2025-11-02"); ("metrics", weather_day)];
     JDict [("date", JStr "2025-11-04"); ("metrics", weather_day)]]
  ∧ Forall (entry_from svc_three_days "weather" "2025-11-01" "2025-11-05")
      (query_metrics_by_date_range svc_three_days "weather" "2025-11-01" "2025-11-05")
  ∧ query_metrics_by_date_range svc_empty "weather" "2025-11-01" "2025-11-05" = [].
Proof.
  destruct (query_sorted_and_selected_by_filename svc_three_days "weather"
              "2025-11-01" "2025-11-05") as (_ & Hfrom & _).
  destruct (query_sorted_and_selected_by_filename svc_empty "weather"
              "2025-11-01" "2025-11-05") as (_ & _ & Hnone & _).
  split; [vm_compute; reflexivity|]. split; [exact Hfrom|].
  apply Hnone. intros name c Hdir _. simpl in Hdir.
  rewrite lookup_empty in Hdir. discriminate Hdir.
Defined.

Lemma dates_loop (files : list (string * content)) (acc : list string) :
  for_each dates_step files acc = Ok (acc ++ omap (λ f, file_date f.1) files).
Proof.
  revert acc. induction files as [|f files IH]; intros acc; simpl.
  - rewrite app_nil_r. reflexivity.
  - assert (Hstep : dates_step acc f
                    = Ok (acc ++ match file_date f.1 with Some d => [d] | None => [] end)).
    { unfold dates_step. destruct (file_date f.1); [reflexivity|].
      rewrite app_nil_r. reflexivity. }
    rewrite Hstep. simpl. rewrite IH, <- app_assoc.
    destruct (file_date f.1); reflexivity.
Qed.

Lemma list_available_dates_eq (svc : t) (ty : string) :
  list_available_dates svc ty
  = Str.sort (omap (λ f, file_date f.1)
                (glob (metrics_dir svc) (ty +:+ "_metrics_*.json"))).
Proof.
  unfold list_available_dates, list_available_dates_body.
  rewrite dates_loop. reflexivity.
Qed.

Lemma NoDup_omap_inj {A B : Type} (f : A → option B) (l : list A) :
  NoDup l →
  (∀ a1 a2 b, a1 ∈ l → a2 ∈ l → f a1 = Some b → f a2 = Some b → a1 = a2) →
  NoDup (omap f l).
Proof.
  induction 1 as [|a l Ha Hnd IH]; intros Hinj; simpl; [constructor|].
  assert (IH' : NoDup (omap f l)).
  { apply IH. intros a1 a2 b H1 H2. apply Hinj; right; assumption. }
  destruct (f a) as [b|] eqn:Hfa; [| exact IH'].
  constructor; [| exact IH'].
  intros Hin. apply list_elem_of_omap in Hin as (a' & Ha' & Hfa').
  apply Ha. rewrite (Hinj a a' b); [exact Ha' | left | right; exact Ha' | exact Hfa | exact Hfa'].
Qed.

Lemma glob_NoDup (dir : gmap string content) (pattern : string) :
  NoDup (glob dir pattern).
Proof. unfold glob. apply NoDup_filter, NoDup_map_to_list. Qed.

(** C7, as the code has it. [list_available_dates] returns the dates parsed
    from the names of the stored files of the data type, one per file, in
    ascending order; no date appears twice when no two of these files share
    the trailing segment of their name. *)
Theorem list_available_dates_sorted_one_per_file (svc : t) (ty : string) :
  StronglySorted Str.le (list_available_dates svc ty)
  ∧ list_available_dates svc ty
    ≡ₚ omap (λ f, file_date f.1) (glob (metrics_dir svc) (ty +:+ "_metrics_*.json"))
  ∧ ((∀ n1 n2 d, is_Some (metrics_dir svc !! n1) → is_Some (metrics_dir svc !! n2) →
                 Str.fnmatch (ty +:+ "_metrics_*.json") n1 = true →
                 Str.fnmatch (ty +:+ "_metrics_*.json") n2 = true →
                 file_date n1 = Some d → file_date n2 = Some d → n1 = n2) →
     NoDup (list_available_dates svc ty)).
Proof.
  rewrite list_available_dates_eq.
  split; [apply str_sort_Sorted|]. split; [apply str_sort_Permutation|].
  intros Hinj. rewrite str_sort_Permutation.
  apply NoDup_omap_inj; [apply glob_NoDup|].
  intros [n1 c1] [n2 c2] d H1 H2 Hd1 Hd2. simpl in *.
  apply glob_elem in H1 as [Hdir1 Hm1]. apply glob_elem in H2 as [Hdir2 Hm2].
  assert (n1 = n2) as <- by (apply (Hinj n1 n2 d); eauto).
  congruence.
Qed.

(** C7, counterexample. With the file of 2025-11-04 and a second file named
    [bikes_metrics_backup_2025-11-04.json], the date 2025-11-04 is listed
    twice. *)
Lemma list_available_dates_repeats_a_date :
  list_available_dates svc_with_backup "bikes" = ["2025-11-04"; "2025-11-04"]
  ∧ (fst <$> map_to_list (metrics_dir svc_with_backup))
    ≡ₚ ["bikes_metrics_2025-11-04.json"; "bikes_metrics_backup_2025-11-04.json"]
  ∧ ¬ NoDup (list_available_dates svc_with_backup "bikes").
Proof.
  assert (Hdates : list_available_dates svc_with_backup "bikes"
                   = ["2025-11-04"; "2025-11-04"]) by (vm_compute; reflexivity).
  split; [exact Hdates|]. split; [vm_compute; reflexivity|].
  rewrite Hdates. intros Hnd. apply NoDup_cons in Hnd as [Hnotin _].
  apply Hnotin. left.
Qed.

Lemma list_available_dates_sorted_one_per_file_witness :
  list_available_dates svc_three_days "weather"
  = ["2025-11-02"; "2025-11-04"; "2025-11-09"]
  ∧ StronglySorted Str.le (list_available_dates svc_three_days "weather").
Proof.
  split; [vm_compute; reflexivity|].
  apply (list_available_dates_sorted_one_per_file svc_three_days "weather").
Defined.

End query_properties.

(** ** Shaping before export *)

Section shaping.
Import Main.
Variable repr : json → string.







Lemma setitem_dict (d : list (string * json)) (k : string) (v : json) :
  setitem (JDict d) k v = Ok (JDict (Py.dict_set k v d)).
Proof. reflexivity. Qed.






Lemma dict_lookup_Some_truthy (k : string) (d : list (string * json)) (v : json) :
  Py.dict_lookup k d = Some v → Py.truthy (JDict d) = true.
Proof. destruct d; [discriminate | reflexivity]. Qed.


Lemma export_results_shaped (oms : string → json → bool) (opt : string → json → json)
    (dbs : DatabaseFactory.service → json → string → string → bool)
    (env : environment) (today : string) (results : list (string * json))
    (date : option string) (shaped : list (string * json)) (trace : list event)
    (count : nat) :
  export_results repr oms opt dbs env today results date = Ok (shaped, trace, count) →
  shape_results repr (default today date) results = Ok shaped.
Proof.
  unfold export_results. intros H.
  apply bind_Ok in H as (shaped' & Hshape & H).
  apply bind_Ok in H as (st & _ & [= <- _ _]).
  destruct date; exact Hshape.
Qed.

End shaping.

Section shaping_properties.
Import Main.






Example zone_fallback_unknown :
  fill_zone repr_sample "2025-11-04" (JDict [("arrondissement", JStr "Unknown")])
  = Ok (JDict [("arrondissement", JStr "Unknown"); ("zone_fallback", JStr "Unknown")]).
Proof. reflexivity. Qed.

Example zone_fallback_from_number :
  fill_zone repr_sample "2025-11-04" (JDict [("arrondissement", JNum 7)])
  = Ok (JDict [("arrondissement", JNum 7); ("zone_fallback", JStr "Arrondissement 7")]).
Proof. vm_compute. reflexivity. Qed.

Example zone_must_be_a_dict :
  fill_zone repr_sample "2025-11-04" (JStr "Bastille") = Raise AttributeError.
Proof. reflexivity. Qed.

End shaping_properties.

(** ** Export: remote copy and local backup *)

Section export_effects.
Import Main.

Lemma string_length_app (a s : string) :
  String.length (a +:+ s) = (String.length a + String.length s)%nat.
Proof. induction a as [|c a IH]; simpl; [reflexivity | rewrite IH; reflexivity]. Qed.

Lemma string_append_inj_r (s a b : string) : a +:+ s = b +:+ s → a = b.
Proof.
  revert b. induction a as [|c a IH]; intros [|c' b] H.
  - reflexivity.
  - exfalso. change (s = String c' (b +:+ s)) in H.
    apply (f_equal String.length) in H. simpl in H.
    rewrite string_length_app in H. lia.
  - exfalso. change (String c (a +:+ s) = s) in H.
    apply (f_equal String.length) in H. simpl in H.
    rewrite string_length_app in H. lia.
  - change (String c (a +:+ s) = String c' (b +:+ s)) in H.
    injection H as -> H. f_equal. apply IH, H.
Qed.

Lemma backup_path_inj (ty1 ty2 d : string) :
  backup_path ty1 d = backup_path ty2 d → ty1 = ty2.
Proof. apply string_append_inj_r. Qed.

Lemma backup_files_app (l1 l2 : list event) (dir : gmap string json) :
  backup_files (l1 ++ l2) dir = backup_files l2 (backup_files l1 dir).
Proof.
  revert dir. induction l1 as [|ev l1 IH]; intros dir; [reflexivity|].
  destruct ev; simpl; apply IH.
Qed.

Lemma backup_files_untouched (l : list event) (dir : gmap string json) (p : string) :
  Forall (λ ev, ∀ data, ev ≠ SaveJson data p) l →
  backup_files l dir !! p = dir !! p.
Proof.
  revert dir. induction l as [|ev l IH]; intros dir Hl; [reflexivity|].
  apply Forall_cons in Hl as [Hev Hl].
  destruct ev as [| data path | |]; simpl; rewrite (IH _ Hl); try reflexivity.
  apply lookup_insert_ne. intros ->. apply (Hev data). reflexivity.
Qed.

Lemma db_writes_app (l1 l2 : list event) :
  db_writes (l1 ++ l2) = db_writes l1 ++ db_writes l2.
Proof.
  induction l1 as [|ev l1 IH]; [reflexivity|].
  destruct ev; simpl; rewrite ?IH; reflexivity.
Qed.

Lemma others_leave_backup (date : string) (l : list event) (ty : string) (dir : gmap string json) :
  Forall (λ ev, ∃ ty', ty' ≠ ty ∧ event_about date ty' ev) l →
  backup_files l dir !! backup_path ty date = dir !! backup_path ty date.
Proof.
  intros Hl. apply backup_files_untouched.
  eapply Forall_impl; [exact Hl|].
  intros ev (ty' & Hne & Hev) data ->. simpl in Hev.
  apply backup_path_inj in Hev. congruence.
Qed.

Lemma others_write_elsewhere (date : string) (l : list event) (ty d : string) (m : json) :
  Forall (λ ev, ∃ ty', ty' ≠ ty ∧ event_about date ty' ev) l →
  ¬ In (ty, d, m) (db_writes l).
Proof.
  induction 1 as [|ev l (ty' & Hne & Hev) _ IH]; simpl; [tauto|].
  destruct ev; simpl in *; try exact IH.
  intros [[= -> _ _]|Hin]; [congruence | apply IH, Hin].
Qed.

End export_effects.

Section export_facts.
Import Main.
Variable oms : string → json → bool.
Variable opt : string → json → json.
Variable dbs : DatabaseFactory.service → json → string → string → bool.
Variable env : environment.
Variable db_service : option DatabaseFactory.service.
Variable date : string.

Lemma export_step_frame (st st' : list event * nat) (item : string * json) :
  export_step oms opt dbs env db_service date st item = Ok st' →
  st'.1 = st.1 ++ item_events oms opt dbs env db_service date item.
Proof.
  unfold item_events, export_step, db_write.
  destruct (Py.truthy item.2); [| intros [= <-]; simpl; rewrite app_nil_r; reflexivity].
  destruct (Py.get item.2 "success" JNull) as [success|]; simpl; [| discriminate].
  destruct (Py.truthy success); [| intros [= <-]; simpl; rewrite app_nil_r; reflexivity].
  destruct (Py.get item.2 "indicators" (JDict [])) as [ind|]; simpl; [| discriminate].
  destruct (Py.truthy ind); [| intros [= <-]; simpl; rewrite app_nil_r; reflexivity].
  intros [= <-].
  destruct db_service as [db|]; [destruct (oms item.1 ind)|];
    destruct (outside_aws env); simpl;
    rewrite <- ?app_assoc, ?app_nil_r; reflexivity.
Qed.

Lemma item_events_about (item : string * json) :
  Forall (event_about date item.1) (item_events oms opt dbs env db_service date item).
Proof.
  unfold item_events, export_step, db_write.
  destruct (Py.truthy item.2); [| constructor].
  destruct (Py.get item.2 "success" JNull) as [success|]; simpl; [| constructor].
  destruct (Py.truthy success); [| constructor].
  destruct (Py.get item.2 "indicators" (JDict [])) as [ind|]; simpl; [| constructor].
  destruct (Py.truthy ind); [| constructor].
  destruct db_service as [db|]; [destruct (oms item.1 ind)|];
    destruct (outside_aws env); simpl; repeat constructor.
Qed.

Lemma export_loop_trace (items : list (string * json)) (st st' : list event * nat) :
  for_each (export_step oms opt dbs env db_service date) items st = Ok st' →
  st'.1 = st.1 ++ flat_map (item_events oms opt dbs env db_service date) items.
Proof.
  revert st. induction items as [|item items IH]; intros st; simpl.
  - intros [= <-]. rewrite app_nil_r. reflexivity.
  - intros H. apply bind_Ok in H as (st1 & Hstep & H).
    rewrite (IH _ H), (export_step_frame _ _ _ Hstep), <- app_assoc. reflexivity.
Qed.

(** The effects of the rounds for other data types. *)
Lemma other_items_about (items : list (string * json)) (ty : string) :
  ty ∉ items.*1 →
  Forall (λ ev, ∃ ty', ty' ≠ ty ∧ event_about date ty' ev)
         (flat_map (item_events oms opt dbs env db_service date) items).
Proof.
  induction items as [|item items IH]; simpl; intros Hnot; [constructor|].
  apply not_elem_of_cons in Hnot as [Hne Hnot].
  apply Forall_app. split; [| apply IH, Hnot].
  eapply Forall_impl; [apply item_events_about|].
  intros ev Hev. exists item.1. split; [congruence | exact Hev].
Qed.

End export_facts.

Lemma shape_results_keys (repr : json → string) (date : string)
    (results shaped : list (string * json)) :
  Main.shape_results repr date results = Ok shaped → shaped.*1 = results.*1.
Proof.
  unfold Main.shape_results. intros H. apply mapM_Ok_Forall2 in H.
  induction H as [|item item' results shaped Hitem _ IH]; [reflexivity|].
  apply bind_Ok in Hitem as (r' & _ & [= <-]). simpl. f_equal. exact IH.
Qed.

Section export_properties.
Import Main.

Lemma middle_key_fresh {A : Type} (l : list (string * A)) (n : nat) (k : string) (a : A) :
  NoDup (l.*1) → l !! n = Some (k, a) →
  (k ∉ fst <$> take n l) ∧ (k ∉ fst <$> drop (S n) l).
Proof.
  intros Hnd Hn. rewrite <- (take_drop_middle _ _ _ Hn) in Hnd.
  rewrite fmap_app, fmap_cons in Hnd. simpl in Hnd.
  apply NoDup_app in Hnd as (_ & Hpre & Hpost).
  apply NoDup_cons in Hpost as [Hpost _].
  split; [| exact Hpost].
  intros Hin. apply (Hpre _ Hin). left.
Qed.

(** C2. Outside a managed-cloud run ([AWS_EXECUTION_ENV] unset) and with a
    back end selected, for every data type whose result is successful, has
    indicators, and for which the size test says yes: the back end is asked
    to store the trimmed indicators, and nothing else, for that type, while
    the local backup file of that (type, date) ends up holding the full
    indicators. *)
Theorem export_writes_trimmed_remote_full_local (repr : json → string)
    (oms : string → json → bool) (opt : string → json → json)
    (dbs : DatabaseFactory.service → json → string → string → bool)
    (env : environment) (today : string) (results : list (string * json))
    (date : option string) (shaped : list (string * json)) (trace : list event)
    (count : nat) (db : DatabaseFactory.service) (n : nat) (ty : string)
    (r : list (string * json)) (s ind : json) :
  export_results repr oms opt dbs env today results date = Ok (shaped, trace, count) →
  NoDup (results.*1) →
  DatabaseFactory.get_database_service env = Ok db →
  getenv env "AWS_EXECUTION_ENV" = None →
  shaped !! n = Some (ty, JDict r) →
  Py.dict_lookup "success" r = Some s → Py.truthy s = true →
  Py.dict_lookup "indicators" r = Some ind → Py.truthy ind = true →
  oms ty ind = true →
  In (ty, default today date, opt ty ind) (db_writes trace)
  ∧ (∀ d m, In (ty, d, m) (db_writes trace) → m = opt ty ind)
  ∧ (∀ dir, backup_files trace dir !! backup_path ty (default today date) = Some ind).
Proof.
  intros Hexport Hnodup Hdb Haws Hn Hs Hst Hind Hit Homs.
  pose proof (export_results_shaped _ _ _ _ _ _ _ _ _ _ _ Hexport) as Hshape.
  apply shape_results_keys in Hshape. rewrite <- Hshape in Hnodup.
  unfold export_results in Hexport.
  apply bind_Ok in Hexport as (shaped' & _ & Hexport).
  rewrite Hdb in Hexport.
  apply bind_Ok in Hexport as (st & Hloop & [= -> <- _]).
  apply export_loop_trace in Hloop. rewrite Hloop. simpl.
  set (run_date := match date with Some d => d | None => today end) in *.
  change (default today date) with run_date.
  destruct (middle_key_fresh _ _ _ _ Hnodup Hn) as [Hpre Hpost].
  rewrite <- (take_drop_middle _ _ _ Hn), flat_map_app. simpl.
  assert (Hmid : item_events oms opt dbs env (Some db) run_date (ty, JDict r)
                 = [DbSaveMetrics (opt ty ind) ty run_date;
                    SaveJson ind (backup_path ty run_date)]).
  { unfold item_events, export_step.
    change ((ty, JDict r).2) with (JDict r). change ((ty, JDict r).1) with ty.
    rewrite (dict_lookup_Some_truthy _ _ _ Hs). unfold Py.get. rewrite Hs, Hind.
    simpl. rewrite Hst, Hit, Homs. unfold db_write, outside_aws. rewrite Haws.
    reflexivity. }
  rewrite Hmid.
  pose proof (other_items_about oms opt dbs env (Some db) run_date _ _ Hpre) as Apre.
  pose proof (other_items_about oms opt dbs env (Some db) run_date _ _ Hpost) as Apost.
  set (pre := flat_map _ (take n shaped)) in *.
  set (post := flat_map _ (drop (S n) shaped)) in *.
  split; [| split].
  - rewrite !db_writes_app. apply in_or_app. left. apply in_or_app. right. left. reflexivity.
  - intros d m. rewrite !db_writes_app. simpl. rewrite !in_app_iff. simpl.
    intros [[Hin | [[= _ <-] | Hin]] | []].
    + exfalso. eapply others_write_elsewhere; [exact Apre | exact Hin].
    + reflexivity.
    + exfalso. eapply others_write_elsewhere; [exact Apost | exact Hin].
  - intros dir. rewrite <- !app_assoc. rewrite backup_files_app. simpl.
    rewrite backup_files_app. simpl.
    rewrite (others_leave_backup run_date post ty); [apply lookup_insert_eq | exact Apost].
Qed.

Lemma export_writes_trimmed_remote_full_local_witness :
  In ("traffic", "2025-11-04", optimize_sample "traffic" traffic_indicators_shaped)
     (db_writes trace_sample)
  ∧ backup_files trace_sample ∅ !! "traffic_metrics_2025-11-04.json"
    = Some traffic_indicators_shaped.
Proof.
  destruct (export_writes_trimmed_remote_full_local repr_sample should_optimize_sample
              optimize_sample db_accepts_all env_local "2025-11-05" results_sample
              (Some "2025-11-04") _ _ _ DatabaseFactory.MongoDBService 0 "traffic"
              [("success", JBool true); ("indicators", traffic_indicators_shaped)]
              (JBool true) traffic_indicators_shaped eq_refl)
    as (Hdb & _ & Hbackup); try reflexivity.
  - apply NoDup_ListNoDup. vm_compute. repeat constructor; simpl; intuition discriminate.
  - split; [exact Hdb | exact (Hbackup ∅)].
Defined.

(** The optimizer of the sample run drops the per-segment list from the
    remote copy, and the backup keeps it. *)
Example export_sample_copies :
  ∃ shaped trace count remote full,
    export_sample = Ok (shaped, trace, count)
    ∧ db_writes trace
      = [("traffic", "2025-11-04", remote);
         ("bikes", "2025-11-04", bikes_indicators)]
    ∧ Py.dict_lookup "metrics" (match remote with JDict d => d | _ => [] end) = None
    ∧ backup_files trace ∅ !! "traffic_metrics_2025-11-04.json" = Some full
    ∧ is_Some (Py.dict_lookup "metrics" (match full with JDict d => d | _ => [] end))
    ∧ count = 2%nat.
Proof.
  do 5 eexists. split; [vm_compute; reflexivity|].
  split; [vm_compute; reflexivity|].
  split; [reflexivity|]. split; [vm_compute; reflexivity|].
  split; [eexists; reflexivity | reflexivity].
Qed.

End export_properties.

(** ** Manual upload *)

Section uploader_properties.
Import AWSUploader.
Variable put_item_ok : json → bool.
Variable now : string.
Variable now_timestamp : Z.

(** The upload of one file adds its item, or nothing, to whatever the
    table holds. *)
Lemma upload_metrics_file_frame (tbl : list json) (file : content) :
  upload_metrics_file put_item_ok now now_timestamp tbl file
  = (tbl ++ option_list (uploaded_item put_item_ok now now_timestamp file), bool_decide (is_Some (uploaded_item put_item_ok now now_timestamp file))).
Proof.
  unfold upload_metrics_file, uploaded_item, upload_metrics_file_body.
  destruct (json_load file) as [data|]; simpl; [| rewrite app_nil_r; reflexivity].
  destruct (Py.get data "metric_type" JNull) as [mt|]; simpl;
    [| rewrite app_nil_r; reflexivity].
  destruct (Py.get data "date" JNull) as [d|]; simpl;
    [| rewrite app_nil_r; reflexivity].
  destruct (Py.get data "metrics" JNull) as [m|]; simpl;
    [| rewrite app_nil_r; reflexivity].
  destruct (negb (Py.truthy mt) || negb (Py.truthy d) || negb (Py.truthy m)); simpl;
    [rewrite app_nil_r; reflexivity|].
  destruct (Py.get data "timestamp" (JStr now)) as [ts|]; simpl;
    [| rewrite app_nil_r; reflexivity].
  destruct (put_item_ok _); simpl; [reflexivity | rewrite app_nil_r; reflexivity].
Qed.

Lemma upload_missing_field (tbl : list json) (d : list (string * json)) :
  missing_required_field d → upload_metrics_file put_item_ok now now_timestamp tbl (Document (JDict d)) = (tbl, false).
Proof.
  unfold upload_metrics_file, upload_metrics_file_body, missing_required_field. simpl.
  intros [H | [H | H]]; rewrite H; simpl; rewrite ?orb_true_r; reflexivity.
Qed.

Lemma upload_loop (files : list (string * content)) (st : tally) :
  table (fold_left (upload_step put_item_ok now now_timestamp) files st)
  = table st ++ omap (λ f, uploaded_item put_item_ok now now_timestamp f.2) files
  ∧ success (fold_left (upload_step put_item_ok now now_timestamp) files st)
    = (success st
       + length (omap (λ f, uploaded_item put_item_ok now now_timestamp f.2) files))%nat
  ∧ (success (fold_left (upload_step put_item_ok now now_timestamp) files st)
     + failed (fold_left (upload_step put_item_ok now now_timestamp) files st)
     = success st + failed st + length files)%nat.
Proof.
  revert st. induction files as [|f files IH]; intros st.
  - simpl. rewrite app_nil_r. repeat split; lia.
  - cbn [fold_left length].
    destruct (IH (upload_step put_item_ok now now_timestamp st f)) as (Ht & Hs & Hsum).
    clear IH.
    assert (Hstep :
      table (upload_step put_item_ok now now_timestamp st f)
      = table st ++ option_list (uploaded_item put_item_ok now now_timestamp f.2)
      ∧ success (upload_step put_item_ok now now_timestamp st f)
        = (success st
           + length (option_list (uploaded_item put_item_ok now now_timestamp f.2)))%nat
      ∧ (success (upload_step put_item_ok now now_timestamp st f)
         + failed (upload_step put_item_ok now now_timestamp st f)
         = S (success st + failed st))%nat).
    { unfold upload_step. rewrite upload_metrics_file_frame. simpl.
      destruct (uploaded_item put_item_ok now now_timestamp f.2); simpl;
        repeat split; lia. }
    destruct Hstep as (Ht1 & Hs1 & Hsum1).
    assert (Hcons :
      omap (λ f, uploaded_item put_item_ok now now_timestamp f.2) (f :: files)
      = option_list (uploaded_item put_item_ok now now_timestamp f.2)
        ++ omap (λ f, uploaded_item put_item_ok now now_timestamp f.2) files).
    { simpl. destruct (uploaded_item put_item_ok now now_timestamp f.2); reflexivity. }
    rewrite Hcons, length_app. split; [| split].
    + rewrite Ht, Ht1, <- app_assoc. reflexivity.
    + rewrite Hs, Hs1. lia.
    + rewrite Hsum, Hsum1. lia.
Qed.

(** C9. A candidate file that lacks [metric_type], [date] or [metrics] makes
    [upload_metrics_file] return [False] and leaves the table as it is;
    [upload_all_metrics] goes through all the candidate files whatever
    happened to the earlier ones (the table receives the item of every
    file that uploads, in the order of the files), and its tally counts
    each candidate once: success + failed = number of candidate files. *)
Theorem upload_all_metrics_tally (metrics_dir : option (gmap string content))
    (date_filter : option string) (table0 : list json) :
  (∀ tbl d, missing_required_field d →
            upload_metrics_file put_item_ok now now_timestamp tbl (Document (JDict d))
            = (tbl, false))
  ∧ (∀ st name d, missing_required_field d →
                  upload_step put_item_ok now now_timestamp st (name, Document (JDict d))
                  = {| table := table st; success := success st;
                       failed := S (failed st) |})
  ∧ (success (upload_all_metrics put_item_ok now now_timestamp
                metrics_dir date_filter table0)
     + failed (upload_all_metrics put_item_ok now now_timestamp
                 metrics_dir date_filter table0)
     = length (candidate_files metrics_dir date_filter))%nat
  ∧ table (upload_all_metrics put_item_ok now now_timestamp
             metrics_dir date_filter table0)
    = table0 ++ omap (λ f, uploaded_item put_item_ok now now_timestamp f.2) (candidate_files metrics_dir date_filter)
  ∧ success (upload_all_metrics put_item_ok now now_timestamp
               metrics_dir date_filter table0)
    = length (omap (λ f, uploaded_item put_item_ok now now_timestamp f.2) (candidate_files metrics_dir date_filter)).
Proof.
  split; [apply upload_missing_field|].
  split.
  { intros st name d Hmissing. unfold upload_step. simpl.
    rewrite (upload_missing_field _ _ Hmissing). reflexivity. }
  unfold upload_all_metrics, candidate_files.
  destruct metrics_dir as [dir|]; simpl; [| rewrite app_nil_r; repeat split].
  destruct (sorted_by String.ltb fst (glob dir (metrics_pattern date_filter)))
    as [|f files] eqn:Hfiles; [simpl; rewrite app_nil_r; repeat split|].
  destruct (upload_loop (f :: files) {| table := table0; success := 0; failed := 0 |})
    as (Ht & Hs & Hsum).
  split; [exact Hsum|]. split; [exact Ht | exact Hs].
Qed.

End uploader_properties.

Lemma upload_all_metrics_tally_witness :
  AWSUploader.success
    (AWSUploader.upload_all_metrics put_accepts_all "2025-11-05T09:00:00" 1762333200
       (Some upload_dir) None []) = 2%nat
  ∧ AWSUploader.failed
      (AWSUploader.upload_all_metrics put_accepts_all "2025-11-05T09:00:00" 1762333200
         (Some upload_dir) None []) = 1%nat
  ∧ length (AWSUploader.candidate_files (Some upload_dir) None) = 3%nat
  ∧ AWSUploader.upload_metrics_file put_accepts_all "2025-11-05T09:00:00" 1762333200
      [] (Document traffic_indicators_shaped) = ([], false).
Proof.
  destruct (upload_all_metrics_tally put_accepts_all "2025-11-05T09:00:00" 1762333200
              (Some upload_dir) None []) as (Hmissing & _ & Hsum & _ & _).
  split; [vm_compute; reflexivity|]. split; [vm_compute; reflexivity|].
  split; [vm_compute; reflexivity|].
  apply (Hmissing [] _). left. reflexivity.
Defined.

(** The files after the one that fails are still uploaded. *)
Example upload_continues_after_failure :
  map (λ item, Py.get item "metric_type" JNull)
      (AWSUploader.table
         (AWSUploader.upload_all_metrics put_accepts_all "2025-11-05T09:00:00"
            1762333200 (Some upload_dir) None []))
  = [Ok (JStr "bikes"); Ok (JStr "weather")].
Proof. vm_compute. reflexivity. Qed.

(** ** File names *)

Section file_names.

Lemma append_nil_l (s : string) : "" +:+ s = s.
Proof. reflexivity. Qed.

Lemma append_cons (c : ascii) (a b : string) : String c a +:+ b = String c (a +:+ b).
Proof. reflexivity. Qed.

Lemma append_assoc (a b c : string) : (a +:+ b) +:+ c = a +:+ b +:+ c.
Proof.
  induction a as [|x a IH]; [reflexivity|].
  rewrite !append_cons, IH. reflexivity.
Qed.

Lemma split_nonempty (sep : ascii) (s : string) : Str.split sep s ≠ [].
Proof.
  destruct s as [|c s]; simpl; [discriminate|].
  destruct (Ascii.eqb c sep); [discriminate|].
  destruct (Str.split sep s); discriminate.
Qed.

Lemma split_clean (sep : ascii) (s : string) :
  has_char sep s = false → Str.split sep s = [s].
Proof.
  induction s as [|c s IH]; simpl; [reflexivity|].
  intros H. apply orb_false_iff in H as [Hc Hs].
  rewrite Hc, (IH Hs). reflexivity.
Qed.

(** [(a + sep + b).split(sep) = a.split(sep) + b.split(sep)]. *)
Lemma split_app (sep : ascii) (a b : string) :
  Str.split sep (a +:+ String sep b) = Str.split sep a ++ Str.split sep b.
Proof.
  induction a as [|c a IH].
  - rewrite append_nil_l. simpl. rewrite Ascii.eqb_refl. reflexivity.
  - rewrite append_cons. simpl. rewrite IH.
    destruct (Ascii.eqb c sep); [reflexivity|].
    pose proof (split_nonempty sep a) as Hne.
    destruct (Str.split sep a) as [|p ps]; [contradiction | reflexivity].
Qed.

Lemma rfind_dot_json (x : string) :
  Str.rfind_dot (x +:+ ".json") = Some (String.length x).
Proof.
  induction x as [|c x IH]; [reflexivity|].
  rewrite append_cons. simpl. rewrite IH. reflexivity.
Qed.

Lemma substring_prefix (x y : string) :
  String.substring 0 (String.length x) (x +:+ y) = x.
Proof.
  induction x as [|c x IH].
  - simpl. destruct y; reflexivity.
  - rewrite append_cons. simpl. rewrite IH. reflexivity.
Qed.

Lemma length_append (a b : string) :
  String.length (a +:+ b) = (String.length a + String.length b)%nat.
Proof.
  induction a as [|c a IH]; [reflexivity|].
  rewrite append_cons. simpl. rewrite IH. reflexivity.
Qed.

(** The stem of [x.json] is [x], for a non-empty [x]. *)
Lemma stem_json (x : string) : x ≠ "" → Str.stem (x +:+ ".json") = x.
Proof.
  intros Hx. unfold Str.stem. rewrite rfind_dot_json, length_append.
  assert (0 < String.length x)%nat by (destruct x; simpl; [congruence | lia]).
  replace ((0 <? String.length x)%nat) with true by (symmetry; apply Nat.ltb_lt; lia).
  replace ((String.length x <? String.length x + String.length ".json" - 1)%nat)
    with true by (symmetry; apply Nat.ltb_lt; simpl; lia).
  simpl. apply substring_prefix.
Qed.

Lemma append_not_nil_r (a b : string) : b ≠ "" → a +:+ b ≠ "".
Proof.
  intros Hb H. apply (f_equal String.length) in H. rewrite length_append in H.
  destruct b; [congruence | simpl in H; lia].
Qed.

Lemma fnmatch_literal (p r name : string) :
  has_char "*" p = false → Str.fnmatch r name = true →
  Str.fnmatch (p +:+ r) (p +:+ name) = true.
Proof.
  intros Hp Hr. induction p as [|c p IH]; [exact Hr|].
  simpl in Hp. apply orb_false_iff in Hp as [Hc Hp].
  rewrite !append_cons. simpl. rewrite Hc, Ascii.eqb_refl, orb_true_r. simpl.
  apply IH, Hp.
Qed.

Lemma fnmatch_star_unfold (q name : string) :
  Str.fnmatch (String "*" q) name
  = Str.fnmatch q name
    || match name with
       | EmptyString => false
       | String _ name' => Str.fnmatch (String "*" q) name'
       end.
Proof. destruct name; reflexivity. Qed.

Lemma fnmatch_star (q x y : string) :
  Str.fnmatch q y = true → Str.fnmatch (String "*" q) (x +:+ y) = true.
Proof.
  intros Hq. induction x as [|c x IH].
  - rewrite append_nil_l, fnmatch_star_unfold, Hq. reflexivity.
  - rewrite append_cons, fnmatch_star_unfold, IH. apply orb_true_r.
Qed.

End file_names.

(** ** Local files: naming, isolation of keys, reports, latest metrics *)

Section local_file_service_more.
Import LocalFileService.

Lemma metrics_path_parts (ty d : string) :
  _get_metrics_path ty d = ((ty +:+ "_metrics") +:+ String "_" d) +:+ ".json".
Proof. unfold _get_metrics_path. rewrite !append_assoc. reflexivity. Qed.

Lemma file_date_of_name (p d : string) :
  (2 <= length (Str.split "_" p))%nat → has_char "_" d = false →
  file_date ((p +:+ String "_" d) +:+ ".json") = Some d.
Proof.
  intros Hp Hd. unfold file_date.
  rewrite stem_json by (apply append_not_nil_r; discriminate).
  rewrite split_app, (split_clean _ _ Hd), length_app.
  destruct (3 <=? length (Str.split "_" p) + length [d])%nat eqn:E.
  - apply last_snoc.
  - apply Nat.leb_gt in E. simpl in E. lia.
Qed.

Lemma split_type_metrics (ty : string) :
  (2 <= length (Str.split "_" (ty +:+ "_metrics")))%nat.
Proof.
  change (ty +:+ "_metrics") with (ty +:+ String "_" "metrics").
  rewrite split_app, length_app. simpl.
  pose proof (split_nonempty "_" ty).
  destruct (Str.split "_" ty); simpl; [congruence | lia].
Qed.

Lemma file_date_metrics_path (ty d : string) :
  has_char "_" d = false → file_date (_get_metrics_path ty d) = Some d.
Proof.
  intros Hd. rewrite metrics_path_parts.
  apply file_date_of_name; [apply split_type_metrics | exact Hd].
Qed.

(** X1. The date is read back from the name of the file written for a key:
    it is the date itself when the date has no underscore, and otherwise
    what follows the last underscore of the date. *)
Theorem file_date_reads_back_the_date (ty x d : string) :
  has_char "_" d = false →
  file_date (_get_metrics_path ty d) = Some d
  ∧ file_date (_get_metrics_path ty (x +:+ String "_" d)) = Some d.
Proof.
  intros Hd. split; [apply file_date_metrics_path, Hd|].
  rewrite metrics_path_parts.
  replace ((ty +:+ "_metrics") +:+ String "_" (x +:+ String "_" d))
    with (((ty +:+ "_metrics") +:+ String "_" x) +:+ String "_" d)
    by (rewrite !append_assoc; reflexivity).
  apply file_date_of_name; [| exact Hd].
  rewrite split_app, length_app.
  pose proof (split_type_metrics ty). lia.
Qed.

Lemma file_date_reads_back_the_date_witness :
  file_date (_get_metrics_path "bikes" "2025-11-04") = Some "2025-11-04"
  ∧ file_date (_get_metrics_path "bikes" "backup_2025-11-04") = Some "2025-11-04".
Proof.
  apply (file_date_reads_back_the_date "bikes" "backup" "2025-11-04"). reflexivity.
Defined.

(** Two keys with underscore-free dates are stored in different files. *)
Lemma metrics_path_inj (ty1 ty2 d1 d2 : string) :
  has_char "_" d1 = false → has_char "_" d2 = false →
  _get_metrics_path ty1 d1 = _get_metrics_path ty2 d2 → ty1 = ty2 ∧ d1 = d2.
Proof.
  intros H1 H2 Heq.
  assert (d1 = d2) as ->.
  { pose proof (file_date_metrics_path ty1 d1 H1) as Hd1.
    rewrite Heq, (file_date_metrics_path ty2 d2 H2) in Hd1. congruence. }
  split; [| reflexivity].
  unfold _get_metrics_path in Heq. apply string_append_inj_r in Heq. exact Heq.
Qed.

(** *** Selection by the date in the file name *)




Lemma load_metrics_other_path (svc svc' : t) (now : string) (m : json)
    (ty d ty' d' : string) :
  save_metrics svc now m ty d = (svc', true) →
  _get_metrics_path ty' d' ≠ _get_metrics_path ty d →
  load_metrics svc' ty' d' = load_metrics svc ty' d'.
Proof.
  intros Hsave Hne. apply save_metrics_true in Hsave as [_ ->].
  unfold load_metrics, load_metrics_body. simpl.
  rewrite lookup_insert_ne by congruence. reflexivity.
Qed.

Lemma save_metrics_outcome (svc svc' : t) (now : string) (m : json)
    (ty d : string) (ok : bool) :
  save_metrics svc now m ty d = (svc', ok) →
  svc' = svc
  ∨ ∃ c, svc' = mk (<[_get_metrics_path ty d := c]> (metrics_dir svc))
                   (reports_dir svc) (writable svc) (dumpable svc)
         ∧ (ok = false → c = Invalid).
Proof.
  unfold save_metrics, save_metrics_body.
  destruct (writable svc (_get_metrics_path ty d)); [| intros [= <- _]; left; reflexivity].
  destruct (dumpable svc (metrics_record now m ty d)); simpl; intros [= <- <-]; right;
    eexists; (split; [reflexivity|]); [discriminate | reflexivity].
Qed.

(** X2. A save under one key leaves every other key alone, whether it
    succeeds or not: for data types and dates that are plain parts of a
    file name (no slash, and no underscore in the dates), the metrics
    stored under any different (data_type, date) read back as before, and
    so does every report. A save that returns [False] has either changed
    nothing or has left the file of its own key unreadable, and the key
    then loads as [None]. *)
Theorem save_metrics_leaves_other_keys (svc svc' : t) (now : string) (m : json)
    (ty d ty' d' : string) (ok : bool) :
  save_metrics svc now m ty d = (svc', ok) →
  plain_date d → plain_date d' →
  has_char "/" ty = false → has_char "/" ty' = false →
  (ty', d') ≠ (ty, d) →
  load_metrics svc' ty' d' = load_metrics svc ty' d'
  ∧ (∀ rd, load_report svc' rd = load_report svc rd)
  ∧ (ok = false →
     svc' = svc
     ∨ (metrics_dir svc' !! _get_metrics_path ty d = Some Invalid
        ∧ load_metrics svc' ty d = JNull)).
Proof.
  intros Hsave [Hd _] [Hd' _] _ _ Hne.
  apply save_metrics_outcome in Hsave as [->|(c & -> & Hc)].
  - split; [reflexivity|]. split; [reflexivity|]. intros _. left. reflexivity.
  - split; [| split].
    + unfold load_metrics, load_metrics_body. simpl.
      rewrite lookup_insert_ne; [reflexivity|].
      intros Heq. symmetry in Heq.
      apply metrics_path_inj in Heq as [-> ->]; [| assumption..].
      apply Hne. reflexivity.
    + intros rd. reflexivity.
    + intros Hok. right. rewrite (Hc Hok).
      unfold load_metrics, load_metrics_body. simpl.
      rewrite lookup_insert_eq. split; reflexivity.
Qed.

Lemma save_metrics_leaves_other_keys_witness :
  (save_metrics svc_full_disk "t4" bikes_day "weather" "2025-11-04").2 = false
  ∧ load_metrics
      (save_metrics svc_full_disk "t4" bikes_day "weather" "2025-11-04").1
      "weather" "2025-11-02" = weather_day
  ∧ load_metrics svc_full_disk "weather" "2025-11-04" = weather_day
  ∧ load_metrics
      (save_metrics svc_full_disk "t4" bikes_day "weather" "2025-11-04").1
      "weather" "2025-11-04" = JNull.
Proof.
  destruct (save_metrics_leaves_other_keys svc_full_disk _ "t4" bikes_day
              "weather" "2025-11-04" "weather" "2025-11-02" false eq_refl)
    as (Hother & _ & Hown).
  - split; reflexivity.
  - split; reflexivity.
  - reflexivity.
  - reflexivity.
  - discriminate.
  - split; [reflexivity|]. split; [| split; [vm_compute; reflexivity|]].
    + transitivity (load_metrics svc_full_disk "weather" "2025-11-02");
        [exact Hother | vm_compute; reflexivity].
    + destruct (Hown eq_refl) as [Hsame|[_ Hnone]]; [| exact Hnone].
      apply (f_equal (λ s, load_metrics s "weather" "2025-11-04")) in Hsame.
      vm_compute in Hsame. discriminate Hsame.
Defined.

(** X3. Keys are not told apart when the text [_metrics_] can be read as
    part of the data type or as part of the date: what is saved for
    (t_metrics_x, d) is what is loaded for (t, x_metrics_d). *)
Theorem save_metrics_aliases_keys (svc svc' : t) (now : string) (m : json)
    (ty x d : string) :
  save_metrics svc now m (ty +:+ "_metrics_" +:+ x) d = (svc', true) →
  load_metrics svc' ty (x +:+ "_metrics_" +:+ d) = m.
Proof.
  intros Hsave. apply save_metrics_true in Hsave as [_ ->].
  unfold load_metrics, load_metrics_body. simpl.
  replace (_get_metrics_path ty (x +:+ "_metrics_" +:+ d))
    with (_get_metrics_path (ty +:+ "_metrics_" +:+ x) d)
    by (unfold _get_metrics_path; rewrite !append_assoc; reflexivity).
  rewrite lookup_insert_eq. reflexivity.
Qed.

Lemma save_metrics_aliases_keys_witness :
  load_metrics
    (save_metrics svc_empty "t0" bikes_day "bikes_metrics_v2" "2025-11-04").1
    "bikes" "v2_metrics_2025-11-04" = bikes_day.
Proof.
  apply (save_metrics_aliases_keys svc_empty _ "t0" bikes_day "bikes" "v2" "2025-11-04").
  reflexivity.
Defined.

Lemma save_report_true (svc svc' : t) (now : string) (r : json) (d : string) :
  save_report svc now r d = (svc', true) →
  svc' = mk (metrics_dir svc)
            (<[_get_report_path d := Document (report_record now r d)]> (reports_dir svc))
            (writable svc) (dumpable svc).
Proof.
  unfold save_report, save_report_body.
  destruct (writable svc (_get_report_path d)); [| discriminate].
  destruct (dumpable svc (report_record now r d)); [| discriminate].
  simpl. intros [= <-]. reflexivity.
Qed.

Lemma report_path_inj (d1 d2 : string) :
  _get_report_path d1 = _get_report_path d2 → d1 = d2.
Proof.
  unfold _get_report_path. intros H.
  apply (inj (String.append "daily_report_")) in H.
  apply string_append_inj_r in H. exact H.
Qed.

(** X4. Reports: after a successful [save_report r d], [load_report d]
    returns [r]; a later save for the same date replaces it; the report of
    any other date and all stored metrics read back as before. *)
Theorem save_report_round_trip (svc svc1 svc2 : t) (now1 now2 : string)
    (r1 r2 : json) (d : string) :
  save_report svc now1 r1 d = (svc1, true) →
  save_report svc1 now2 r2 d = (svc2, true) →
  load_report svc1 d = r1
  ∧ load_report svc2 d = r2
  ∧ size (reports_dir svc2) = size (reports_dir svc1)
  ∧ (∀ d', d' ≠ d → load_report svc1 d' = load_report svc d')
  ∧ (∀ ty d', load_metrics svc1 ty d' = load_metrics svc ty d').
Proof.
  intros H1 H2. apply save_report_true in H1, H2. subst svc1 svc2.
  unfold load_report, load_report_body, load_metrics. simpl.
  rewrite !lookup_insert_eq. simpl.
  split; [reflexivity|]. split; [reflexivity|]. split.
  - apply map_size_insert_Some. rewrite lookup_insert_eq. eauto.
  - split; [| reflexivity].
    intros d' Hne. rewrite lookup_insert_ne; [reflexivity|].
    intros Heq. apply report_path_inj in Heq. congruence.
Qed.

Lemma save_report_round_trip_witness :
  load_report
    (save_report (save_report svc_empty "t1" bikes_day "2025-11-04").1
       "t2" weather_day "2025-11-04").1 "2025-11-04" = weather_day.
Proof.
  destruct (save_report_round_trip svc_empty _ _ "t1" "t2" bikes_day weather_day
              "2025-11-04" eq_refl eq_refl) as (_ & H & _).
  exact H.
Defined.

Lemma pattern_matches_path (ty d : string) :
  has_char "*" ty = false →
  Str.fnmatch (ty +:+ "_metrics_*.json") (_get_metrics_path ty d) = true.
Proof.
  intros Hty. unfold _get_metrics_path.
  apply fnmatch_literal; [exact Hty|].
  apply (fnmatch_literal "_metrics_" "*.json" (d +:+ ".json")); [reflexivity|].
  apply fnmatch_star. reflexivity.
Qed.

Lemma saved_file_in_glob (svc svc' : t) (now : string) (m : json) (ty d : string) :
  save_metrics svc now m ty d = (svc', true) → has_char "*" ty = false →
  (_get_metrics_path ty d, Document (metrics_record now m ty d))
  ∈ glob (metrics_dir svc') (ty +:+ "_metrics_*.json").
Proof.
  intros Hsave Hty. apply save_metrics_true in Hsave as [_ ->]. simpl.
  apply glob_elem. split; [apply lookup_insert_eq | apply pattern_matches_path, Hty].
Qed.

(** X5. What is saved is listed: after a successful save for a plain data
    type and a date without underscore or slash, [list_available_dates]
    contains the date. *)
Theorem saved_date_is_listed (svc svc' : t) (now : string) (m : json) (ty d : string) :
  save_metrics svc now m ty d = (svc', true) →
  plain_type ty → plain_date d →
  d ∈ list_available_dates svc' ty.
Proof.
  intros Hsave (Hty & _) (Hd & _).
  rewrite list_available_dates_eq, str_sort_Permutation.
  apply list_elem_of_omap. eexists. split.
  - apply (saved_file_in_glob _ _ _ _ _ _ Hsave Hty).
  - simpl. apply file_date_metrics_path, Hd.
Qed.

Lemma saved_date_is_listed_witness :
  "2025-11-04"
  ∈ list_available_dates
      (save_metrics svc_empty "t0" bikes_day "bikes" "2025-11-04").1 "bikes".
Proof.
  apply (saved_date_is_listed svc_empty _ "t0" bikes_day "bikes" "2025-11-04" eq_refl);
    repeat split.
Defined.

(** X6. What is saved is found by a range query: when the query raises
    nothing, the result holds the entry with the saved date and metrics for
    every bounds that include the date. *)
Theorem saved_record_is_queried (svc svc' : t) (now : string) (m : json)
    (ty d s e : string) (r : list json) :
  save_metrics svc now m ty d = (svc', true) →
  plain_type ty → plain_date d →
  Str.le s d → Str.le d e →
  query_metrics_by_date_range_body svc' ty s e = Ok r →
  JDict [("date", JStr d); ("metrics", m)] ∈ r.
Proof.
  intros Hsave (Hty & _) (Hd & _) Hs He Hq.
  apply query_body_spec in Hq as (es & Hes & Hperm & _).
  pose proof (saved_file_in_glob _ _ _ _ _ _ Hsave Hty) as Hin.
  assert (Hsel : (_get_metrics_path ty d, Document (metrics_record now m ty d))
                 ∈ filter (λ f, selects s e f.1 = true)
                     (glob (metrics_dir svc') (ty +:+ "_metrics_*.json"))).
  { apply list_elem_of_filter. split; [| exact Hin].
    simpl. unfold selects. rewrite (file_date_metrics_path _ _ Hd).
    apply in_range_le. split; assumption. }
  destruct (Forall2_elem_of_l _ _ _ _ Hes Hsel) as (x & Hx & fd & data & Hfd & Hc & ->).
  simpl in Hfd, Hc. rewrite (file_date_metrics_path _ _ Hd) in Hfd.
  injection Hfd as <-. injection Hc as <-.
  rewrite Hperm. exact Hx.
Qed.

Lemma saved_record_is_queried_witness :
  JDict [("date", JStr "2025-11-04"); ("metrics", bikes_day)]
  ∈ query_metrics_by_date_range
      (save_metrics svc_empty "t0" bikes_day "bikes" "2025-11-04").1
      "bikes" "2025-11-01" "2025-11-30".
Proof.
  apply (saved_record_is_queried svc_empty _ "t0" bikes_day "bikes" "2025-11-04"
           "2025-11-01" "2025-11-30" _ eq_refl); repeat split.
Defined.

Lemma query_loop_raises (s e : string) (files : list (string * content))
    (acc : list json) (f : string * content) :
  f ∈ files → selects s e f.1 = true →
  (∀ d, f.2 ≠ Document (JDict d)) →
  ∃ ex, for_each (query_step s e) files acc = Raise ex.
Proof.
  intros Hin Hsel Hbad. revert acc.
  induction files as [|f0 files IH]; intros acc; [inversion Hin|].
  simpl. destruct (query_step s e acc f0) as [acc'|ex] eqn:Hstep; simpl;
    [| eexists; reflexivity].
  apply elem_of_cons in Hin as [<-|Hin]; [| apply IH, Hin].
  exfalso. apply query_step_selected in Hstep. rewrite Hsel in Hstep.
  destruct Hstep as (x & (fd & data & _ & Hc & _) & _). exact (Hbad data Hc).
Qed.

(** X7. One bad file empties the answer: if a stored file of the data type
    whose filename date lies within the bounds is not readable as a JSON
    object, the range query returns the empty list, whatever else is
    stored. *)
Theorem unreadable_file_empties_query (svc : t) (ty s e name : string) (c : content) :
  metrics_dir svc !! name = Some c →
  Str.fnmatch (ty +:+ "_metrics_*.json") name = true →
  selects s e name = true →
  (∀ d, c ≠ Document (JDict d)) →
  query_metrics_by_date_range svc ty s e = [].
Proof.
  intros Hdir Hmatch Hsel Hbad.
  unfold query_metrics_by_date_range, query_metrics_by_date_range_body.
  destruct (query_loop_raises s e (glob (metrics_dir svc) (ty +:+ "_metrics_*.json"))
              [] (name, c)) as (ex & ->); try assumption.
  - apply glob_elem. split; assumption.
  - reflexivity.
Qed.

Lemma unreadable_file_empties_query_witness :
  query_metrics_by_date_range svc_damaged "weather" "2025-11-01" "2025-11-05" = []
  ∧ query_metrics_by_date_range svc_damaged "weather" "2025-11-03" "2025-11-05"
    = [JDict [("date", JStr "2025-11-04"); ("metrics", weather_day)]].
Proof.
  split; [| vm_compute; reflexivity].
  apply (unreadable_file_empties_query svc_damaged "weather" "2025-11-01" "2025-11-05"
           "weather_metrics_2025-11-02.json" Invalid).
  - apply lookup_insert_eq.
  - reflexivity.
  - reflexivity.
  - discriminate.
Defined.

(** *** The latest record *)

Lemma string_leb_antisym (a b : string) : Str.le a b → Str.le b a → a = b.
Proof.
  unfold Str.le, String.leb. rewrite (String.compare_antisym a b).
  destruct (String.compare b a) eqn:Hc; simpl; try discriminate.
  intros _ _. apply String.compare_eq_iff in Hc. congruence.
Qed.

Lemma last_sorted_max (l : list string) (x : string) :
  StronglySorted Str.le l → last l = Some x → ∀ y, y ∈ l → y = x ∨ Str.le y x.
Proof.
  induction 1 as [|a l Hs IH Hall]; intros Hlast y Hy; [inversion Hy|].
  destruct l as [|b l].
  - apply list_elem_of_singleton in Hy. injection Hlast as <-. left. exact Hy.
  - change (last (a :: b :: l)) with (last (b :: l)) in Hlast.
    apply elem_of_cons in Hy as [->|Hy]; [| apply IH; assumption].
    right. rewrite Forall_forall in Hall. apply Hall.
    apply last_Some_elem_of. exact Hlast.
Qed.

(** A save adds at most its own date to the listing. *)
Lemma listed_after_save (svc svc' : t) (now : string) (m : json)
    (ty ty' d fd d' : string) :
  save_metrics svc now m ty d = (svc', true) →
  file_date (_get_metrics_path ty d) = Some fd →
  d' ∈ list_available_dates svc' ty' →
  d' = fd ∨ d' ∈ list_available_dates svc ty'.
Proof.
  intros Hsave Hd. apply save_metrics_true in Hsave as [_ ->].
  rewrite !list_available_dates_eq, !str_sort_Permutation. simpl.
  intros Hin. apply list_elem_of_omap in Hin as ([name c] & Hin & Hfd).
  apply glob_elem in Hin as [Hlook Hmatch]. simpl in Hfd.
  destruct (decide (name = _get_metrics_path ty d)) as [->|Hne].
  - left. congruence.
  - right. rewrite lookup_insert_ne in Hlook by congruence.
    apply list_elem_of_omap. exists (name, c). split; [| exact Hfd].
    apply glob_elem. split; assumption.
Qed.

(** X8. The latest record is the one just saved when its date comes last:
    after a successful save for a plain data type and date that no listed
    date of the data type exceeds, [get_latest_metrics] returns the saved
    metrics. *)
Theorem latest_is_the_newest_save (svc svc' : t) (now : string) (m : json)
    (ty d : string) :
  save_metrics svc now m ty d = (svc', true) →
  plain_type ty → plain_date d →
  (∀ d', d' ∈ list_available_dates svc ty → Str.le d' d) →
  get_latest_metrics svc' ty = m.
Proof.
  intros Hsave Hpty Hpd Hmax.
  assert (Hty := proj1 Hpty). assert (Hd := proj1 Hpd).
  assert (Hlisted : d ∈ list_available_dates svc' ty).
  { rewrite list_available_dates_eq, str_sort_Permutation.
    apply list_elem_of_omap. eexists. split.
    - apply (saved_file_in_glob _ _ _ _ _ _ Hsave Hty).
    - simpl. apply file_date_metrics_path, Hd. }
  unfold get_latest_metrics.
  destruct (last (list_available_dates svc' ty)) as [x|] eqn:Hlast.
  - assert (x = d) as ->; [| apply (load_after_save _ _ _ _ _ _ Hsave)].
    assert (Hx : x ∈ list_available_dates svc' ty)
      by (apply last_Some_elem_of; exact Hlast).
    assert (Hsorted : StronglySorted Str.le (list_available_dates svc' ty))
      by (rewrite list_available_dates_eq; apply str_sort_Sorted).
    destruct (last_sorted_max _ _ Hsorted Hlast d Hlisted) as [Heq|Hle]; [congruence|].
    destruct (listed_after_save _ _ _ _ _ _ _ _ _ Hsave (file_date_metrics_path _ _ Hd) Hx)
      as [Heq|Hold];
      [exact Heq|].
    apply string_leb_antisym; [apply Hmax, Hold | exact Hle].
  - apply last_None in Hlast. rewrite Hlast in Hlisted. inversion Hlisted.
Qed.

Lemma latest_is_the_newest_save_witness :
  get_latest_metrics
    (save_metrics svc_three_days "t5" bikes_day "weather" "2025-11-10").1 "weather"
  = bikes_day.
Proof.
  apply (latest_is_the_newest_save svc_three_days _ "t5" bikes_day "weather"
           "2025-11-10" eq_refl).
  - repeat split.
  - repeat split.
  - intros d' Hd'. vm_compute in Hd'.
    repeat (apply elem_of_cons in Hd' as [->|Hd']; [reflexivity|]).
    inversion Hd'.
Defined.


Lemma file_date_metrics_path_tail (ty x d : string) :
  has_char "_" d = false →
  file_date (_get_metrics_path ty (x +:+ String "_" d)) = Some d.
Proof.
  intros Hd. rewrite metrics_path_parts.
  replace ((ty +:+ "_metrics") +:+ String "_" (x +:+ String "_" d))
    with (((ty +:+ "_metrics") +:+ String "_" x) +:+ String "_" d)
    by (rewrite !append_assoc; reflexivity).
  apply file_date_of_name; [| exact Hd].
  rewrite split_app, length_app.
  pose proof (split_type_metrics ty). lia.
Qed.

Lemma metrics_path_tail_ne (ty x d : string) :
  _get_metrics_path ty (x +:+ String "_" d) ≠ _get_metrics_path ty d.
Proof.
  intros Heq. assert (Hlen := f_equal String.length Heq).
  unfold _get_metrics_path in Hlen. rewrite !length_append in Hlen.
  simpl in Hlen. lia.
Qed.

(** X9. A record saved under a date with an underscore is stored but not
    found as the latest. The listing names it by what follows the last
    underscore of its date; when that tail comes last among the listed
    dates and nothing is stored under it, [get_latest_metrics] returns
    [None], while [load_metrics] under the date itself returns the
    metrics. *)
Theorem latest_misses_underscored_date (svc svc' : t) (now : string) (m : json)
    (ty x d : string) :
  save_metrics svc now m ty (x +:+ String "_" d) = (svc', true) →
  plain_type ty → has_char "_" d = false →
  metrics_dir svc !! _get_metrics_path ty d = None →
  (∀ d', d' ∈ list_available_dates svc ty → Str.le d' d) →
  get_latest_metrics svc' ty = JNull
  ∧ load_metrics svc' ty (x +:+ String "_" d) = m.
Proof.
  intros Hsave Hpty Hd Hnone Hmax. assert (Hty := proj1 Hpty).
  split; [| apply (load_after_save _ _ _ _ _ _ Hsave)].
  assert (Hlisted : d ∈ list_available_dates svc' ty).
  { rewrite list_available_dates_eq, str_sort_Permutation.
    apply list_elem_of_omap. eexists. split.
    - apply (saved_file_in_glob _ _ _ _ _ _ Hsave Hty).
    - simpl. apply file_date_metrics_path_tail, Hd. }
  unfold get_latest_metrics.
  destruct (last (list_available_dates svc' ty)) as [y|] eqn:Hlast; [| reflexivity].
  assert (y = d) as ->.
  { assert (Hy : y ∈ list_available_dates svc' ty)
      by (apply last_Some_elem_of; exact Hlast).
    assert (Hsorted : StronglySorted Str.le (list_available_dates svc' ty))
      by (rewrite list_available_dates_eq; apply str_sort_Sorted).
    destruct (last_sorted_max _ _ Hsorted Hlast d Hlisted) as [Heq|Hle]; [congruence|].
    destruct (listed_after_save _ _ _ _ _ _ _ _ _ Hsave
                (file_date_metrics_path_tail _ _ _ Hd) Hy) as [Heq|Hold];
      [exact Heq|].
    apply string_leb_antisym; [apply Hmax, Hold | exact Hle]. }
  apply save_metrics_true in Hsave as [_ ->].
  unfold load_metrics, load_metrics_body. simpl.
  rewrite lookup_insert_ne by apply metrics_path_tail_ne.
  rewrite Hnone. reflexivity.
Qed.

Lemma latest_misses_underscored_date_witness :
  get_latest_metrics
    (save_metrics svc_three_days "t5" bikes_day "weather" "backup_2025-11-10").1 "weather"
  = JNull
  ∧ load_metrics
      (save_metrics svc_three_days "t5" bikes_day "weather" "backup_2025-11-10").1
      "weather" "backup_2025-11-10" = bikes_day.
Proof.
  apply (latest_misses_underscored_date svc_three_days _ "t5" bikes_day "weather"
           "backup" "2025-11-10" eq_refl).
  - repeat split.
  - reflexivity.
  - reflexivity.
  - intros d' Hd'. vm_compute in Hd'.
    repeat (apply elem_of_cons in Hd' as [->|Hd']; [reflexivity|]).
    inversion Hd'.
Defined.

End local_file_service_more.

(** ** More on the factory and the export *)

Section database_factory_more.
Import DatabaseFactory.

(** X10. The factory never falls back: it fails exactly when importing or
    constructing the service picked by the sentinel directory fails, with
    that exception, whatever the other service would do; the [ValueError]
    of its last branch is never its own. A failure makes
    [test_database_connection] answer [False]. *)
Theorem factory_never_falls_back (env : environment) (e : exn) :
  (get_database_service env = Raise e
   ↔ (if path_exists env local_bucket
      then mongodb_service env else local_file_service env) = Raise e)
  ∧ (get_database_service env = Raise e → test_database_connection env = false).
Proof.
  unfold test_database_connection, get_database_service.
  destruct (path_exists env local_bucket); simpl.
  - destruct (mongodb_service env); simpl; split;
      (split; congruence) || (intros; congruence || reflexivity).
  - destruct (local_file_service env); simpl; split;
      (split; congruence) || (intros; congruence || reflexivity).
Qed.

End database_factory_more.

Section export_more.
Import Main.
Variable repr : json → string.
Variable oms : string → json → bool.
Variable opt : string → json → json.
Variable dbs : DatabaseFactory.service → json → string → string → bool.

Lemma local_saves_app (l1 l2 : list event) :
  local_saves (l1 ++ l2) = local_saves l1 ++ local_saves l2.
Proof. apply omap_app. Qed.

Lemma backup_files_local_saves (trace : list event) (dir : gmap string json) :
  backup_files trace dir
  = foldl (λ d s, <[s.1 := s.2]> d) dir (local_saves trace).
Proof.
  revert dir. induction trace as [|ev trace IH]; intros dir; [reflexivity|].
  destruct ev; simpl; apply IH.
Qed.

(** What one round asks of [save_json] does not depend on the back end. *)
Lemma item_saves_any_backend (env : environment)
    (db1 db2 : option DatabaseFactory.service) (date : string) (item : string * json) :
  local_saves (item_events oms opt dbs env db1 date item)
  = local_saves (item_events oms opt dbs env db2 date item).
Proof.
  unfold item_events, export_step, db_write.
  destruct (Py.truthy item.2); [| reflexivity].
  destruct (Py.get item.2 "success" JNull) as [success|]; simpl; [| reflexivity].
  destruct (Py.truthy success); [| reflexivity].
  destruct (Py.get item.2 "indicators" (JDict [])) as [ind|]; simpl; [| reflexivity].
  destruct (Py.truthy ind); [| reflexivity].
  destruct db1 as [d1|], db2 as [d2|]; destruct (oms item.1 ind);
    destruct (outside_aws env); reflexivity.
Qed.

(** Whether a round raises does not depend on the back end either. *)
Lemma export_step_any_backend (env1 env2 : environment)
    (db1 db2 : option DatabaseFactory.service) (date : string)
    (st1 st1' st2 : list event * nat) (item : string * json) :
  export_step oms opt dbs env1 db1 date st1 item = Ok st1' →
  ∃ st2', export_step oms opt dbs env2 db2 date st2 item = Ok st2'.
Proof.
  unfold export_step.
  destruct (Py.truthy item.2); [| eauto].
  destruct (Py.get item.2 "success" JNull) as [success|]; simpl; [| discriminate].
  destruct (Py.truthy success); [| eauto].
  destruct (Py.get item.2 "indicators" (JDict [])) as [ind|]; simpl; [| discriminate].
  destruct (Py.truthy ind); eauto.
Qed.

Lemma export_loop_any_backend (env1 env2 : environment)
    (db1 db2 : option DatabaseFactory.service) (date : string)
    (items : list (string * json)) (st1 st1' st2 : list event * nat) :
  for_each (export_step oms opt dbs env1 db1 date) items st1 = Ok st1' →
  ∃ st2', for_each (export_step oms opt dbs env2 db2 date) items st2 = Ok st2'.
Proof.
  revert st1 st2. induction items as [|item items IH]; intros st1 st2; simpl; [eauto|].
  intros H. apply bind_Ok in H as (st & Hstep & H).
  destruct (export_step_any_backend env1 env2 db1 db2 date st1 st st2 item Hstep)
    as (st' & ->). simpl. eapply IH, H.
Qed.

Lemma item_saves_inside_aws (env : environment)
    (db : option DatabaseFactory.service) (date : string) (item : string * json) :
  outside_aws env = false →
  local_saves (item_events oms opt dbs env db date item) = [].
Proof.
  intros Haws. unfold item_events, export_step, db_write. rewrite Haws.
  destruct (Py.truthy item.2); [| reflexivity].
  destruct (Py.get item.2 "success" JNull) as [success|]; simpl; [| reflexivity].
  destruct (Py.truthy success); [| reflexivity].
  destruct (Py.get item.2 "indicators" (JDict [])) as [ind|]; simpl; [| reflexivity].
  destruct (Py.truthy ind); [| reflexivity].
  destruct db as [d|]; [destruct (oms item.1 ind)|]; reflexivity.
Qed.

Lemma outside_aws_getenv (env1 env2 : environment) :
  getenv env1 "AWS_EXECUTION_ENV" = getenv env2 "AWS_EXECUTION_ENV" →
  outside_aws env1 = outside_aws env2.
Proof. unfold outside_aws. intros ->. reflexivity. Qed.

Lemma item_events_getenv (env1 env2 : environment)
    (db : option DatabaseFactory.service) (date : string) (item : string * json) :
  outside_aws env1 = outside_aws env2 →
  item_events oms opt dbs env1 db date item = item_events oms opt dbs env2 db date item.
Proof. unfold item_events, export_step. intros ->. reflexivity. Qed.

(** The trace of a run, as the rounds of the loop and the closing calls. *)
Lemma export_results_trace (env : environment) (today : string)
    (results : list (string * json)) (date : option string)
    (shaped : list (string * json)) (trace : list event) (count : nat) :
  export_results repr oms opt dbs env today results date = Ok (shaped, trace, count) →
  let db_service := match DatabaseFactory.get_database_service env with
                    | Ok db => Some db
                    | Raise _ => None
                    end in
  shape_results repr (default today date) results = Ok shaped
  ∧ (∃ st, for_each (export_step oms opt dbs env db_service (default today date))
             shaped ([], 0%nat) = Ok st ∧ st.2 = count)
  ∧ trace = flat_map (item_events oms opt dbs env db_service (default today date)) shaped
            ++ (match db_service with Some _ => [DbClose] | None => [] end)
            ++ [CleanupChunks].
Proof.
  intros Hexport db_service. unfold export_results in Hexport.
  apply bind_Ok in Hexport as (shaped' & Hshape & Hexport).
  apply bind_Ok in Hexport as (st & Hloop & [= -> <- <-]).
  split; [exact Hshape|]. split; [eauto|].
  apply export_loop_trace in Hloop. rewrite Hloop. reflexivity.
Qed.

Lemma accepted_singleton (db : DatabaseFactory.service) (w : string * string * json) :
  length (filter (λ w, dbs db w.2 w.1.1 w.1.2 = true) [w])
  = if dbs db w.2 w.1.1 w.1.2 then 1%nat else 0%nat.
Proof.
  rewrite filter_cons, filter_nil.
  destruct (decide (dbs db w.2 w.1.1 w.1.2 = true)) as [H|H].
  - rewrite H. reflexivity.
  - destruct (dbs db w.2 w.1.1 w.1.2); [congruence | reflexivity].
Qed.

(** The counter and the writes of one round. *)
Lemma export_step_count (env : environment) (db : DatabaseFactory.service)
    (date : string) (st st' : list event * nat) (item : string * json) :
  export_step oms opt dbs env (Some db) date st item = Ok st' →
  let ws := db_writes (item_events oms opt dbs env (Some db) date item) in
  st'.2 = (st.2 + length (filter (λ w, dbs db w.2 w.1.1 w.1.2 = true) ws))%nat
  ∧ (length ws ≤ 1)%nat
  ∧ Forall (λ w, w.1 = (item.1, date)) ws.
Proof.
  unfold item_events, export_step, db_write.
  destruct (Py.truthy item.2);
    [| intros [= <-]; simpl; repeat split; (lia || constructor)].
  destruct (Py.get item.2 "success" JNull) as [success|]; simpl; [| discriminate].
  destruct (Py.truthy success);
    [| intros [= <-]; simpl; repeat split; (lia || constructor)].
  destruct (Py.get item.2 "indicators" (JDict [])) as [ind|]; simpl; [| discriminate].
  destruct (Py.truthy ind);
    [| intros [= <-]; simpl; repeat split; (lia || constructor)].
  intros [= <-].
  destruct (oms item.1 ind); destruct (outside_aws env); cbn [fst snd app db_writes];
    rewrite accepted_singleton; cbn [fst snd];
    (split; [destruct (dbs db _ item.1 date); lia |]);
    (split; [simpl; lia | repeat constructor]).
Qed.

Lemma export_loop_count (env : environment) (db : DatabaseFactory.service)
    (date : string) (items : list (string * json)) (st st' : list event * nat) :
  for_each (export_step oms opt dbs env (Some db) date) items st = Ok st' →
  let ws := db_writes (flat_map (item_events oms opt dbs env (Some db) date) items) in
  st'.2 = (st.2 + length (filter (λ w, dbs db w.2 w.1.1 w.1.2 = true) ws))%nat
  ∧ (length ws ≤ length items)%nat
  ∧ Forall (λ w, w.1.2 = date ∧ w.1.1 ∈ items.*1) ws.
Proof.
  revert st. induction items as [|item items IH]; intros st; simpl.
  - intros [= <-]. repeat split; (lia || constructor).
  - intros H. apply bind_Ok in H as (st1 & Hstep & H).
    apply export_step_count in Hstep as (Hc1 & Hl1 & Hf1).
    apply IH in H as (Hc & Hl & Hf).
    rewrite db_writes_app, filter_app, !length_app.
    split; [lia|]. split; [lia|].
    apply Forall_app. split.
    + eapply Forall_impl; [exact Hf1|]. intros w Hw. rewrite Hw. simpl.
      split; [reflexivity | left].
    + eapply Forall_impl; [exact Hf|]. intros w [Hw1 Hw2].
      split; [exact Hw1 | right; exact Hw2].
Qed.

Lemma item_events_no_backend (env : environment) (date : string) (item : string * json) :
  db_writes (item_events oms opt dbs env None date item) = []
  ∧ DbClose ∉ item_events oms opt dbs env None date item.
Proof.
  unfold item_events, export_step.
  destruct (Py.truthy item.2); [| split; [reflexivity | apply not_elem_of_nil]].
  destruct (Py.get item.2 "success" JNull) as [success|]; simpl;
    [| split; [reflexivity | apply not_elem_of_nil]].
  destruct (Py.truthy success); [| split; [reflexivity | apply not_elem_of_nil]].
  destruct (Py.get item.2 "indicators" (JDict [])) as [ind|]; simpl;
    [| split; [reflexivity | apply not_elem_of_nil]].
  destruct (Py.truthy ind); [| split; [reflexivity | apply not_elem_of_nil]].
  destruct (outside_aws env); simpl; (split; [reflexivity|]).
  - intros Hin. apply list_elem_of_singleton in Hin. discriminate.
  - apply not_elem_of_nil.
Qed.

Lemma export_step_no_backend (env : environment) (date : string)
    (st st' : list event * nat) (item : string * json) :
  export_step oms opt dbs env None date st item = Ok st' → st'.2 = st.2.
Proof.
  unfold export_step.
  destruct (Py.truthy item.2); [| congruence].
  destruct (Py.get item.2 "success" JNull) as [success|]; simpl; [| discriminate].
  destruct (Py.truthy success); [| congruence].
  destruct (Py.get item.2 "indicators" (JDict [])) as [ind|]; simpl; [| discriminate].
  destruct (Py.truthy ind); [| congruence].
  destruct (outside_aws env); intros [= <-]; reflexivity.
Qed.

Lemma export_loop_no_backend (env : environment) (date : string)
    (items : list (string * json)) (st st' : list event * nat) :
  for_each (export_step oms opt dbs env None date) items st = Ok st' →
  st'.2 = st.2
  ∧ db_writes (flat_map (item_events oms opt dbs env None date) items) = []
  ∧ DbClose ∉ flat_map (item_events oms opt dbs env None date) items.
Proof.
  revert st. induction items as [|item items IH]; intros st; simpl.
  - intros [= <-]. repeat split. apply not_elem_of_nil.
  - intros H. apply bind_Ok in H as (st1 & Hstep & H).
    apply export_step_no_backend in Hstep. apply IH in H as (Hc & Hw & Hcl).
    destruct (item_events_no_backend env date item) as [Hw1 Hcl1].
    split; [congruence|]. split.
    + rewrite db_writes_app, Hw1, Hw. reflexivity.
    + rewrite elem_of_app. tauto.
Qed.

(** X11. When the back end cannot be constructed the export goes on
    without it: nothing is sent to a back end, the count of exported types
    is 0 and no connection is closed, and the run still ends with the
    cleanup of the processed chunks. *)
Theorem export_without_backend (env : environment) (today : string)
    (results : list (string * json)) (date : option string)
    (shaped : list (string * json)) (trace : list event) (count : nat) (e : exn) :
  DatabaseFactory.get_database_service env = Raise e →
  export_results repr oms opt dbs env today results date = Ok (shaped, trace, count) →
  count = 0%nat ∧ db_writes trace = [] ∧ (DbClose ∉ trace)
  ∧ last trace = Some CleanupChunks.
Proof.
  intros Hdb Hexport.
  apply export_results_trace in Hexport as (_ & (st & Hloop & <-) & ->).
  rewrite Hdb in *.
  apply export_loop_no_backend in Hloop as (Hc & Hw & Hcl).
  split; [exact Hc|]. split; [| split].
  - rewrite db_writes_app, Hw. reflexivity.
  - rewrite elem_of_app. intros [Hin|Hin]; [exact (Hcl Hin)|].
    simpl in Hin. apply list_elem_of_singleton in Hin. discriminate.
  - simpl. apply last_snoc.
Qed.

(** X12. The local backups do not depend on the back end: two runs on the
    same results that agree on [AWS_EXECUTION_ENV] return together, shape
    the results alike and ask [save_json] for the same files with the same
    contents in the same order, whichever back end each one has, if
    any. *)
Theorem backups_do_not_depend_on_backend (env1 env2 : environment) (today : string)
    (results : list (string * json)) (date : option string)
    (shaped : list (string * json)) (trace1 : list event) (count1 : nat) :
  getenv env1 "AWS_EXECUTION_ENV" = getenv env2 "AWS_EXECUTION_ENV" →
  export_results repr oms opt dbs env1 today results date = Ok (shaped, trace1, count1) →
  ∃ trace2 count2,
    export_results repr oms opt dbs env2 today results date = Ok (shaped, trace2, count2)
    ∧ local_saves trace2 = local_saves trace1
    ∧ ∀ dir, backup_files trace2 dir = backup_files trace1 dir.
Proof.
  intros Henv Hexport. apply outside_aws_getenv in Henv.
  apply export_results_trace in Hexport as (Hshape & (st & Hloop & _) & ->).
  set (db1 := match DatabaseFactory.get_database_service env1 with
              | Ok db => Some db | Raise _ => None end) in *.
  set (db2 := match DatabaseFactory.get_database_service env2 with
              | Ok db => Some db | Raise _ => None end).
  destruct (export_loop_any_backend env1 env2 db1 db2 _ _ _ _ ([], 0%nat) Hloop)
    as (st2 & Hloop2).
  assert (Hrun : export_results repr oms opt dbs env2 today results date
                 = Ok (shaped,
                       st2.1 ++ (match db2 with Some _ => [DbClose] | None => [] end)
                             ++ [CleanupChunks], st2.2)).
  { unfold export_results.
    change (match date with Some d => d | None => today end) with (default today date).
    rewrite Hshape. simpl. fold db2. rewrite Hloop2. reflexivity. }
  eexists _, _. split; [exact Hrun|].
  apply export_loop_trace in Hloop2. rewrite Hloop2. simpl.
  assert (Hsaves :
    local_saves (flat_map (item_events oms opt dbs env2 db2 (default today date)) shaped
                 ++ match db2 with Some _ => [DbClose] | None => [] end ++ [CleanupChunks])
    = local_saves (flat_map (item_events oms opt dbs env1 db1 (default today date)) shaped
                 ++ match db1 with Some _ => [DbClose] | None => [] end ++ [CleanupChunks])).
  { rewrite !local_saves_app.
    assert (Htail : ∀ db : option DatabaseFactory.service,
              local_saves (match db with Some _ => [DbClose] | None => [] end) = [])
      by (intros [?|]; reflexivity).
    rewrite !Htail. f_equal.
    generalize shaped. intros items. induction items as [|item items IH]; [reflexivity|].
    simpl. rewrite !local_saves_app, IH. f_equal.
    rewrite <- (item_events_getenv env1 env2 db2 _ _ Henv).
    apply item_saves_any_backend. }
  split; [exact Hsaves|].
  intros dir. rewrite !backup_files_local_saves, Hsaves. reflexivity.
Qed.

(** X13. Inside a managed AWS runtime, where [AWS_EXECUTION_ENV] is set
    to a non-empty value, the export writes no local backup: no file of
    the metrics directory is created or changed. *)
Theorem export_inside_aws_writes_no_backup (env : environment) (today v : string)
    (results : list (string * json)) (date : option string)
    (shaped : list (string * json)) (trace : list event) (count : nat) :
  getenv env "AWS_EXECUTION_ENV" = Some v → v ≠ "" →
  export_results repr oms opt dbs env today results date = Ok (shaped, trace, count) →
  local_saves trace = [] ∧ ∀ dir, backup_files trace dir = dir.
Proof.
  intros Hv Hne Hexport.
  assert (Haws : outside_aws env = false).
  { unfold outside_aws. rewrite Hv. apply String.eqb_neq. exact Hne. }
  apply export_results_trace in Hexport as (_ & _ & ->).
  assert (Hsaves : ∀ tail,
    local_saves tail = [] →
    local_saves
      (flat_map (item_events oms opt dbs env
                   match DatabaseFactory.get_database_service env with
                   | Ok db => Some db | Raise _ => None end (default today date)) shaped
       ++ tail) = []).
  { intros tail Htail. rewrite local_saves_app, Htail, app_nil_r.
    generalize shaped. intros items. induction items as [|item items IH]; [reflexivity|].
    simpl. rewrite local_saves_app, IH, (item_saves_inside_aws _ _ _ _ Haws).
    reflexivity. }
  assert (H : local_saves
      (flat_map (item_events oms opt dbs env
                   match DatabaseFactory.get_database_service env with
                   | Ok db => Some db | Raise _ => None end (default today date)) shaped
       ++ match match DatabaseFactory.get_database_service env with
                | Ok db => Some db | Raise _ => None end with
          | Some _ => [DbClose] | None => [] end ++ [CleanupChunks]) = []).
  { apply Hsaves. destruct (DatabaseFactory.get_database_service env); reflexivity. }
  split; [exact H|].
  intros dir. rewrite backup_files_local_saves, H. reflexivity.
Qed.

(** X14. With a back end, the reported count is the number of writes that
    the back end accepted. Each write is made under the run date for a data
    type of the results, there are no more writes than results, and the
    connection is closed and the chunks are cleaned after the last
    write. *)
Theorem export_counts_accepted_writes (env : environment) (today : string)
    (results : list (string * json)) (date : option string)
    (shaped : list (string * json)) (trace : list event) (count : nat)
    (db : DatabaseFactory.service) :
  DatabaseFactory.get_database_service env = Ok db →
  export_results repr oms opt dbs env today results date = Ok (shaped, trace, count) →
  count = length (accepted_writes dbs db trace)
  ∧ (length (db_writes trace) ≤ length results)%nat
  ∧ Forall (λ w, w.1.2 = default today date ∧ w.1.1 ∈ results.*1) (db_writes trace)
  ∧ ∃ body, trace = body ++ [DbClose; CleanupChunks]
            ∧ db_writes body = db_writes trace.
Proof.
  intros Hdb Hexport.
  assert (Hkeys := Hexport).
  apply export_results_trace in Hexport as (Hshape & (st & Hloop & <-) & ->).
  rewrite Hdb in *.
  apply shape_results_keys in Hshape.
  assert (Hlen : length shaped = length results)
    by (rewrite <- (length_fmap fst shaped), Hshape, length_fmap; reflexivity).
  apply export_loop_count in Hloop as (Hc & Hl & Hf). simpl in Hc.
  unfold accepted_writes.
  rewrite db_writes_app. simpl. rewrite app_nil_r.
  split; [exact Hc|]. split; [lia|]. split.
  - rewrite <- Hshape. exact Hf.
  - eexists. split; [reflexivity | reflexivity].
Qed.

End export_more.

Lemma export_without_backend_witness :
  ∃ shaped trace,
    Main.export_results repr_sample should_optimize_sample optimize_sample db_accepts_all
      env_mongo_down "2025-11-05" results_sample (Some "2025-11-04")
    = Ok (shaped, trace, 0%nat)
    ∧ Main.db_writes trace = []
    ∧ local_saves trace
      = [("traffic_metrics_2025-11-04.json", traffic_indicators_shaped);
         ("bikes_metrics_2025-11-04.json", bikes_indicators)].
Proof.
  destruct (Main.export_results repr_sample should_optimize_sample optimize_sample
              db_accepts_all env_mongo_down "2025-11-05" results_sample
              (Some "2025-11-04")) as [[[shaped trace] count]|] eqn:Hrun;
    [| vm_compute in Hrun; discriminate].
  destruct (export_without_backend repr_sample should_optimize_sample optimize_sample db_accepts_all env_mongo_down "2025-11-05" results_sample
              (Some "2025-11-04") shaped trace count OSError eq_refl Hrun)
    as (-> & Hw & _).
  exists shaped, trace. split; [reflexivity|]. split; [exact Hw|].
  vm_compute in Hrun. injection Hrun as _ <-. vm_compute. reflexivity.
Defined.

Lemma backups_do_not_depend_on_backend_witness :
  ∃ trace2 count2,
    Main.export_results repr_sample should_optimize_sample optimize_sample db_accepts_all
      env_mongo_down "2025-11-05" results_sample (Some "2025-11-04")
    = Ok (match export_sample with Ok (s, _, _) => s | Raise _ => [] end,
          trace2, count2)
    ∧ local_saves trace2 = local_saves trace_sample.
Proof.
  destruct (backups_do_not_depend_on_backend repr_sample should_optimize_sample optimize_sample db_accepts_all env_local env_mongo_down "2025-11-05"
              results_sample (Some "2025-11-04")
              (match export_sample with Ok (s, _, _) => s | Raise _ => [] end)
              trace_sample 2%nat eq_refl)
    as (trace2 & count2 & Hrun & Hsaves & _).
  - vm_compute. reflexivity.
  - exists trace2, count2. split; [exact Hrun | exact Hsaves].
Defined.

Lemma export_inside_aws_writes_no_backup_witness :
  ∃ shaped trace count,
    Main.export_results repr_sample should_optimize_sample optimize_sample db_accepts_all
      env_lambda "2025-11-05" results_sample (Some "2025-11-04")
    = Ok (shaped, trace, count)
    ∧ local_saves trace = [] ∧ count = 2%nat.
Proof.
  destruct (Main.export_results repr_sample should_optimize_sample optimize_sample
              db_accepts_all env_lambda "2025-11-05" results_sample
              (Some "2025-11-04")) as [[[shaped trace] count]|] eqn:Hrun;
    [| vm_compute in Hrun; discriminate].
  destruct (export_inside_aws_writes_no_backup repr_sample should_optimize_sample optimize_sample db_accepts_all env_lambda "2025-11-05"
              "AWS_Lambda_python3.12" results_sample (Some "2025-11-04")
              shaped trace count eq_refl) as [Hs _]; [discriminate | exact Hrun |].
  exists shaped, trace, count. split; [reflexivity|]. split; [exact Hs|].
  vm_compute in Hrun. injection Hrun as _ _ <-. reflexivity.
Defined.

Lemma export_counts_accepted_writes_witness :
  ∃ shaped trace,
    export_sample = Ok (shaped, trace, length (accepted_writes db_accepts_all
                                                 DatabaseFactory.MongoDBService trace)).
Proof.
  destruct export_sample as [[[shaped trace] count]|] eqn:Hrun;
    [| vm_compute in Hrun; discriminate].
  destruct (export_counts_accepted_writes repr_sample should_optimize_sample optimize_sample db_accepts_all env_local "2025-11-05" results_sample
              (Some "2025-11-04") shaped trace count DatabaseFactory.MongoDBService
              eq_refl Hrun) as (-> & _).
  exists shaped, trace. reflexivity.
Defined.

(** ** From the local store to AWS *)

Section upload_more.
Variable repr : json → string.
Variable put_item_ok : json → bool.
Variable put_object_ok : string → bool.
Variable upload_file_ok : string → bool.
Variable now : string.
Variable now_timestamp : Z.
Variable reports_prefix : string.

Lemma nonempty_str (s : string) : s ≠ "" → String.eqb s "" = false.
Proof. apply String.eqb_neq. Qed.

(** X15. What [save_metrics] writes is what [upload_metrics_file] reads:
    the file stored for a non-empty data type and date uploads as one item
    that carries the data type, the date, the time of the save and the
    metrics, when the metrics are truthy and the table accepts the item;
    otherwise the table is left as it is and the upload reports a
    failure. *)
Theorem saved_metrics_upload_as_saved (svc svc' : LocalFileService.t)
    (saved_at : string) (m : json) (ty d : string) (tbl : list json) :
  LocalFileService.save_metrics svc saved_at m ty d = (svc', true) →
  ty ≠ "" → d ≠ "" →
  ∃ file,
    LocalFileService.metrics_dir svc' !! LocalFileService._get_metrics_path ty d
    = Some file
    ∧ AWSUploader.upload_metrics_file put_item_ok now now_timestamp tbl file
      = let item := AWSUploader.metrics_item now_timestamp
                      (JStr ty) (JStr d) (JStr saved_at) m in
        if Py.truthy m && put_item_ok item then (tbl ++ [item], true)
        else (tbl, false).
Proof.
  intros Hsave Hty Hd. apply save_metrics_true in Hsave as [_ ->].
  eexists. split; [apply lookup_insert_eq|].
  unfold AWSUploader.upload_metrics_file, AWSUploader.upload_metrics_file_body,
    LocalFileService.metrics_record.
  cbn [json_load mbind res_bind Py.get Py.dict_lookup String.eqb Ascii.eqb Bool.eqb].
  simpl. rewrite (nonempty_str _ Hty), (nonempty_str _ Hd). simpl.
  destruct (Py.truthy m); simpl; [| reflexivity].
  destruct (put_item_ok _); reflexivity.
Qed.

Section reports.
Import AWSUploaderReports.

Lemma items_put_app (l1 l2 : list event) :
  items_put (l1 ++ l2) = items_put l1 ++ items_put l2.
Proof. apply omap_app. Qed.

Lemma objects_put_app (l1 l2 : list event) :
  objects_put (l1 ++ l2) = objects_put l1 ++ objects_put l2.
Proof. apply omap_app. Qed.

(** The effects of one call: at most one item and one object, the object
    only after the item, and both when the call returns [True]. *)
Lemma upload_report_file_effects (dir : gmap string content) (trace : list event)
    (file : content) :
  ∃ new,
    (upload_report_file repr put_item_ok put_object_ok upload_file_ok now
       now_timestamp reports_prefix dir trace file).1 = trace ++ new
    ∧ (length (objects_put new) ≤ length (items_put new) ≤ 1)%nat
    ∧ ((upload_report_file repr put_item_ok put_object_ok upload_file_ok now
          now_timestamp reports_prefix dir trace file).2 = true →
       length (objects_put new) = 1%nat).
Proof.
  unfold upload_report_file.
  destruct (read_report now now_timestamp file) as [[[[data date] item]|]|];
    try (exists []; rewrite app_nil_r; simpl; split; [reflexivity|];
         split; [lia | discriminate]).
  destruct (put_item_ok item);
    [| exists []; rewrite app_nil_r; simpl; split; [reflexivity|];
       split; [lia | discriminate]].
  destruct (put_object_ok _);
    [| exists [PutItem item]; simpl; split; [reflexivity|];
       split; [lia | discriminate]].
  destruct (dir !! _) as [csv|]; [destruct (upload_file_ok _)|];
    eexists; rewrite <- !app_assoc; (split; [reflexivity|]); simpl;
    (split; [lia | (reflexivity || discriminate)]).
Qed.

Lemma upload_reports_loop (dir : gmap string content)
    (files : list (string * content)) (st : tally) :
  let st' := fold_left (upload_step repr put_item_ok put_object_ok upload_file_ok
                          now now_timestamp reports_prefix dir) files st in
  ∃ new,
    effects st' = effects st ++ new
    ∧ (success st' + failed st' = success st + failed st + length files)%nat
    ∧ (success st' - success st ≤ length (objects_put new))%nat
    ∧ (success st ≤ success st')%nat
    ∧ (length (objects_put new) ≤ length (items_put new) ≤ length files)%nat.
Proof.
  revert st. induction files as [|f files IH]; intros st; cbn [fold_left length].
  - exists []. rewrite app_nil_r. simpl. repeat split; lia.
  - destruct (IH (upload_step repr put_item_ok put_object_ok upload_file_ok
                    now now_timestamp reports_prefix dir st f))
      as (new2 & He2 & Hsum2 & Hs2 & Hmono2 & Hle2).
    clear IH.
    destruct (upload_report_file_effects dir (effects st) f.2)
      as (new1 & He1 & Hle1 & Hok1).
    set (st1 := upload_step repr put_item_ok put_object_ok upload_file_ok
                  now now_timestamp reports_prefix dir st f) in *.
    assert (Hst1 : effects st1 = effects st ++ new1
                   ∧ (success st1 + failed st1 = success st + failed st + 1)%nat
                   ∧ (success st ≤ success st1)%nat
                   ∧ (success st1 - success st ≤ length (objects_put new1))%nat).
    { subst st1. unfold upload_step.
      destruct (upload_report_file repr put_item_ok put_object_ok upload_file_ok
                  now now_timestamp reports_prefix dir (effects st) f.2)
        as [tr b].
      simpl in He1, Hok1. destruct b; simpl.
      - specialize (Hok1 eq_refl). repeat split; (exact He1 || lia).
      - repeat split; (exact He1 || lia). }
    destruct Hst1 as (He & Hsum & Hmono & Hs).
    exists (new1 ++ new2). rewrite He2, He, <- app_assoc.
    rewrite items_put_app, objects_put_app, !length_app.
    repeat split; (reflexivity || lia).
Qed.

(** X16. The report upload is counted per file but is not atomic: over
    the candidate files, success and failed add up to their number, every
    success has put one item and one JSON object, and an object is put
    only after its item, so that the table can hold items of files that
    are counted as failed. *)
Theorem upload_all_reports_tally (dir : gmap string content)
    (date_filter : option string) (trace0 : list event) :
  let t := upload_all_reports repr put_item_ok put_object_ok upload_file_ok
             now now_timestamp reports_prefix (Some dir) date_filter trace0 in
  ∃ new,
    effects t = trace0 ++ new
    ∧ (success t + failed t = length (report_candidates dir date_filter))%nat
    ∧ (success t ≤ length (objects_put new))%nat
    ∧ (length (objects_put new) ≤ length (items_put new))%nat
    ∧ (length (items_put new) ≤ length (report_candidates dir date_filter))%nat.
Proof.
  unfold upload_all_reports, report_candidates.
  destruct (sorted_by String.ltb fst (glob dir (reports_pattern date_filter)))
    as [|f files] eqn:Hfiles.
  - exists []. rewrite app_nil_r. simpl. repeat split; lia.
  - destruct (upload_reports_loop dir (f :: files)
                {| effects := trace0; success := 0; failed := 0 |})
      as (new & He & Hsum & Hs & _ & Hle).
    exists new. simpl in *. repeat split; (exact He || lia).
Qed.

(** X17. What [save_report] writes is what [upload_report_file] reads:
    the file stored for a non-empty date and a truthy report, with no CSV
    beside it, uploads as one item that carries the report, its date and
    the time of the save, followed by one JSON object that holds the whole
    stored document under the key made of the prefix and the name of the
    local file. *)
Theorem saved_report_uploads_as_saved (svc svc' : LocalFileService.t)
    (saved_at : string) (r : json) (d : string) (trace : list event) :
  LocalFileService.save_report svc saved_at r d = (svc', true) →
  d ≠ "" → Py.truthy r = true →
  LocalFileService.reports_dir svc' !! ("daily_report_" +:+ d +:+ ".csv") = None →
  put_item_ok (report_item now_timestamp (JStr ("daily_report_" +:+ d)) (JStr d)
                 (JStr saved_at) r) = true →
  put_object_ok (reports_prefix +:+ "/" +:+ LocalFileService._get_report_path d)
  = true →
  ∃ file,
    LocalFileService.reports_dir svc' !! LocalFileService._get_report_path d
    = Some file
    ∧ upload_report_file repr put_item_ok put_object_ok upload_file_ok now
        now_timestamp reports_prefix (LocalFileService.reports_dir svc') trace file
      = (trace
         ++ [PutItem (report_item now_timestamp (JStr ("daily_report_" +:+ d))
                        (JStr d) (JStr saved_at) r);
             PutObject (reports_prefix +:+ "/" +:+ LocalFileService._get_report_path d)
               (LocalFileService.report_record saved_at r d)],
         true).
Proof.
  intros Hsave Hd Hr Hcsv Hitem Hobj.
  assert (Hfile := Hsave). apply save_report_true in Hfile. subst svc'.
  cbn [LocalFileService.reports_dir] in *.
  eexists. split; [apply lookup_insert_eq|].
  assert (Hread : read_report now now_timestamp
                    (Document (LocalFileService.report_record saved_at r d))
                  = Ok (Some (LocalFileService.report_record saved_at r d, JStr d,
                              report_item now_timestamp
                                (JStr ("daily_report_" +:+ d)) (JStr d)
                                (JStr saved_at) r))).
  { unfold read_report, LocalFileService.report_record. simpl.
    rewrite (nonempty_str _ Hd), Hr. reflexivity. }
  assert (Hkey : s3_key repr reports_prefix (JStr d)
                 = reports_prefix +:+ "/" +:+ LocalFileService._get_report_path d).
  { unfold s3_key, LocalFileService._get_report_path. reflexivity. }
  unfold upload_report_file. rewrite Hread, Hitem, Hkey, Hobj.
  unfold csv_name. cbn [Main.str]. rewrite Hcsv.
  rewrite <- app_assoc. reflexivity.
Qed.

End reports.

End upload_more.

Lemma saved_metrics_upload_as_saved_witness :
  AWSUploader.upload_metrics_file (λ _, true) "t9" 1000 []
    (Document (LocalFileService.metrics_record "t0" bikes_day "bikes" "2025-11-04"))
  = ([AWSUploader.metrics_item 1000 (JStr "bikes") (JStr "2025-11-04") (JStr "t0")
        bikes_day], true).
Proof.
  destruct (saved_metrics_upload_as_saved (λ _, true) "t9" 1000 svc_empty _
              "t0" bikes_day "bikes" "2025-11-04" [] eq_refl)
    as (file & Hfile & Hup).
  - discriminate.
  - discriminate.
  - vm_compute in Hfile. injection Hfile as <-. exact Hup.
Defined.

(** Two stored reports and a bucket that refuses the second: one success
    and one failure, and both items in the table. *)
Example upload_reports_partial_failure :
  let t := AWSUploaderReports.upload_all_reports repr_sample (λ _, true)
             refuses_fourth (λ _, true) "t9" 1000 "reports"
             (Some reports_two_days) None [] in
  AWSUploaderReports.success t = 1%nat ∧ AWSUploaderReports.failed t = 1%nat
  ∧ length (items_put (AWSUploaderReports.effects t)) = 2%nat
  ∧ length (objects_put (AWSUploaderReports.effects t)) = 1%nat.
Proof. vm_compute. repeat split. Qed.

Lemma saved_report_uploads_as_saved_witness :
  AWSUploaderReports.upload_report_file repr_sample (λ _, true) (λ _, true)
    (λ _, true) "t9" 1000 "reports"
    (LocalFileService.reports_dir
       (LocalFileService.save_report svc_empty "t1" bikes_day "2025-11-04").1) []
    (Document (LocalFileService.report_record "t1" bikes_day "2025-11-04"))
  = ([AWSUploaderReports.PutItem
        (AWSUploaderReports.report_item 1000 (JStr "daily_report_2025-11-04")
           (JStr "2025-11-04") (JStr "t1") bikes_day);
      AWSUploaderReports.PutObject "reports/daily_report_2025-11-04.json"
        (LocalFileService.report_record "t1" bikes_day "2025-11-04")], true).
Proof.
  destruct (saved_report_uploads_as_saved repr_sample (λ _, true) (λ _, true)
              (λ _, true) "t9" 1000 "reports" svc_empty _ "t1" bikes_day
              "2025-11-04" [] eq_refl)
    as (file & Hfile & Hup).
  - discriminate.
  - reflexivity.
  - reflexivity.
  - reflexivity.
  - reflexivity.
  - vm_compute in Hfile. injection Hfile as <-. exact Hup.
Defined.

(** ** Cleanup of the processed chunks *)

Section cleanup_more.
Import Chunks.
Context {A : Type}.
Variable removable : string → bool.

Lemma glob_glob_elem (dir : gmap string A) (pattern name : string) :
  name ∈ glob_glob dir pattern
  ↔ is_Some (dir !! name) ∧ Str.fnmatch pattern name = true ∧ hidden name = false.
Proof.
  unfold glob_glob. rewrite list_elem_of_filter, list_elem_of_fmap. split.
  - intros [H ([n a] & -> & Hin)]. apply elem_of_map_to_list in Hin.
    split; [eauto | exact H].
  - intros [[a Ha] H]. split; [exact H|].
    exists (name, a). split; [reflexivity | apply elem_of_map_to_list, Ha].
Qed.

Lemma glob_glob_NoDup (dir : gmap string A) (pattern : string) :
  NoDup (glob_glob dir pattern).
Proof. unfold glob_glob. apply NoDup_filter, NoDup_fst_map_to_list. Qed.

Lemma remove_loop (l : list string) (m : gmap string A) (n : nat) :
  NoDup l → (∀ x, x ∈ l → is_Some (m !! x)) →
  (∀ name, (fold_left (remove_step removable) l (m, n)).1 !! name
           = if bool_decide (name ∈ l) && removable name then None else m !! name)
  ∧ (size (fold_left (remove_step removable) l (m, n)).1
     + (fold_left (remove_step removable) l (m, n)).2 = size m + n)%nat.
Proof.
  revert m n. induction l as [|x l IH]; intros m n Hnd Hdom.
  - simpl. split; [intros name; reflexivity | reflexivity].
  - apply NoDup_cons in Hnd as [Hx Hnd]. cbn [fold_left].
    destruct (Hdom x) as [a Ha]; [left|].
    unfold remove_step at 2 4 6. cbn [fst snd].
    destruct (removable x) eqn:Hrem.
    + destruct (IH (delete x m) (S n) Hnd) as [Hl Hs].
      { intros y Hy. rewrite lookup_delete_ne; [apply Hdom; right; exact Hy|].
        intros ->. exact (Hx Hy). }
      split.
      * intros name. rewrite Hl.
        destruct (decide (name = x)) as [->|Hne].
        -- rewrite (bool_decide_eq_false_2 _ Hx), Hrem, lookup_delete_eq.
           rewrite bool_decide_eq_true_2 by left. reflexivity.
        -- rewrite lookup_delete_ne by congruence.
           rewrite (bool_decide_ext (name ∈ l) (name ∈ x :: l)); [reflexivity|].
           rewrite elem_of_cons. tauto.
      * rewrite Hs. rewrite (map_size_delete_Some x m) by eauto.
        assert (size m ≠ 0%nat).
        { intros H0. apply map_size_empty_inv in H0. subst m.
          rewrite lookup_empty in Ha. discriminate. }
        lia.
    + destruct (IH m n Hnd) as [Hl Hs].
      { intros y Hy. apply Hdom. right. exact Hy. }
      split; [| exact Hs].
      intros name. rewrite Hl.
      destruct (decide (name = x)) as [->|Hne].
      * rewrite Hrem, !andb_false_r. reflexivity.
      * rewrite (bool_decide_ext (name ∈ l) (name ∈ x :: l)); [reflexivity|].
        rewrite elem_of_cons. tauto.
Qed.

(** X18. The cleanup removes the chunk files and nothing else: afterwards
    a name is gone when it matches [*_chunk_*.csv], is not hidden and could
    be removed, and every other entry of the directory is as before, also
    when the removal of some chunk fails; the count is the number of
    entries that are gone. With [keep_chunks] nothing is touched. *)
Theorem cleanup_removes_only_chunks (dir : gmap string A) :
  (∀ name, (cleanup_processed_chunks removable dir false).1 !! name
           = if is_chunk name && removable name then None else dir !! name)
  ∧ (size (cleanup_processed_chunks removable dir false).1
     + (cleanup_processed_chunks removable dir false).2 = size dir)%nat
  ∧ cleanup_processed_chunks removable dir true = (dir, 0%nat).
Proof.
  unfold cleanup_processed_chunks.
  destruct (remove_loop (glob_glob dir "*_chunk_*.csv") dir 0
              (glob_glob_NoDup _ _)) as [Hl Hs].
  { intros x Hx. apply glob_glob_elem in Hx. tauto. }
  split; [| split; [lia | reflexivity]].
  intros name. rewrite Hl. unfold is_chunk.
  destruct (bool_decide (name ∈ glob_glob dir "*_chunk_*.csv")) eqn:Hin.
  - apply bool_decide_eq_true in Hin. apply glob_glob_elem in Hin as (_ & -> & ->).
    reflexivity.
  - apply bool_decide_eq_false in Hin.
    destruct (Str.fnmatch "*_chunk_*.csv" name && negb (hidden name)) eqn:Hc;
      [| reflexivity].
    apply andb_true_iff in Hc as [Hm Hh]. apply negb_true_iff in Hh.
    destruct (dir !! name) as [a|] eqn:Ha.
    + exfalso. apply Hin, glob_glob_elem. eauto.
    + destruct (removable name); reflexivity.
Qed.

End cleanup_more.

(** The sample directory: the first chunk goes, the write-protected one,
    the hidden one and the result file stay. *)
Example cleanup_sample :
  (Chunks.cleanup_processed_chunks not_the_second processed_sample false).1
  = list_to_map [("comptages_chunk_2.csv", ()); (".comptages_chunk_3.csv", ());
                 ("comptages_clean.csv", ())]
  ∧ (Chunks.cleanup_processed_chunks not_the_second processed_sample false).2 = 1%nat.
Proof. split; vm_compute; reflexivity. Qed.

(** ** Loading the raw data *)

Section raw_data_more.
Import RawData.
Variable find_json_files : string → res (list string).
Variable load_json : string → res json.
Variable load_and_combine_json_files : list string → res json.
Variable find_csv_files : string → string → res (list string).
Variable parent : string → string.
Variable path_exists : string → bool.

Lemma store_lookup_ne (k k' : string) (v : option json) (raw : list (string * json)) :
  k ≠ k' → Py.dict_lookup k' (store k v raw) = Py.dict_lookup k' raw.
Proof.
  intros Hne. destruct v; [apply dict_lookup_set_ne, Hne | reflexivity].
Qed.

Lemma store_lookup_same (k k' : string) (v : option json)
    (raw1 raw2 : list (string * json)) :
  Py.dict_lookup k' raw1 = Py.dict_lookup k' raw2 →
  Py.dict_lookup k' (store k v raw1) = Py.dict_lookup k' (store k v raw2).
Proof.
  intros H. destruct v as [v|]; [| exact H]. simpl.
  destruct (decide (k = k')) as [->|Hne].
  - rewrite !dict_lookup_set_eq. reflexivity.
  - rewrite !dict_lookup_set_ne by exact Hne. exact H.
Qed.

Lemma dict_set_keys (k : string) (v : json) (d : list (string * json)) :
  is_Some (Py.dict_lookup k d) → (Py.dict_set k v d).*1 = d.*1.
Proof.
  induction d as [|[k' v'] d IH]; simpl; [intros [? [=]]|].
  destruct (String.eqb k' k); [reflexivity|].
  intros H. simpl. f_equal. apply IH, H.
Qed.

Lemma store_keys (k : string) (v : option json) (raw : list (string * json)) :
  is_Some (Py.dict_lookup k raw) → (store k v raw).*1 = raw.*1.
Proof. destruct v; [apply dict_set_keys | reflexivity]. Qed.

Lemma store_is_Some (k k' : string) (v : option json) (raw : list (string * json)) :
  is_Some (Py.dict_lookup k' raw) → is_Some (Py.dict_lookup k' (store k v raw)).
Proof.
  destruct v as [v|]; [| tauto]. simpl. intros H.
  destruct (decide (k = k')) as [->|Hne].
  - rewrite dict_lookup_set_eq. eauto.
  - rewrite dict_lookup_set_ne by exact Hne. exact H.
Qed.

Lemma load_api_frame (cfg : config) (raw : list (string * json)) (k : string) :
  k ≠ "bikes" → k ≠ "traffic" → k ≠ "weather" →
  Py.dict_lookup k (load_api find_json_files load_json load_and_combine_json_files
                      cfg raw)
  = Py.dict_lookup k raw.
Proof.
  intros Hb Ht Hw. unfold load_api.
  destruct (load_api_source _ _ _ (BIKES_JSON_PATH cfg)); [| reflexivity].
  destruct (load_api_source _ _ _ (TRAFFIC_JSON_PATH cfg));
    [| rewrite store_lookup_ne by congruence; reflexivity].
  destruct (load_api_source _ _ _ (WEATHER_JSON_PATH cfg));
    rewrite !store_lookup_ne by congruence; reflexivity.
Qed.

Lemma load_batch_frame (cfg : config) (raw : list (string * json)) (k : string) :
  k ≠ "comptages" → k ≠ "chantiers" → k ≠ "referentiel" →
  Py.dict_lookup k (load_batch find_csv_files parent path_exists cfg raw)
  = Py.dict_lookup k raw.
Proof.
  intros Hb Ht Hw. unfold load_batch.
  destruct (load_batch_source _ _ _ (COMPTAGES_CSV cfg) _); [| reflexivity].
  destruct (load_batch_source _ _ _ (CHANTIERS_CSV cfg) _);
    [| rewrite store_lookup_ne by congruence; reflexivity].
  destruct (load_batch_source _ _ _ (REFERENTIEL_CSV cfg) _);
    rewrite !store_lookup_ne by congruence; reflexivity.
Qed.

Lemma load_batch_same (cfg : config) (raw1 raw2 : list (string * json)) (k : string) :
  Py.dict_lookup k raw1 = Py.dict_lookup k raw2 →
  Py.dict_lookup k (load_batch find_csv_files parent path_exists cfg raw1)
  = Py.dict_lookup k (load_batch find_csv_files parent path_exists cfg raw2).
Proof.
  intros H. unfold load_batch.
  destruct (load_batch_source _ _ _ (COMPTAGES_CSV cfg) _); [| exact H].
  destruct (load_batch_source _ _ _ (CHANTIERS_CSV cfg) _);
    [| apply store_lookup_same, H].
  destruct (load_batch_source _ _ _ (REFERENTIEL_CSV cfg) _);
    repeat apply store_lookup_same; exact H.
Qed.

Lemma load_api_keys (cfg : config) (raw : list (string * json)) :
  is_Some (Py.dict_lookup "bikes" raw) → is_Some (Py.dict_lookup "traffic" raw) →
  is_Some (Py.dict_lookup "weather" raw) →
  (load_api find_json_files load_json load_and_combine_json_files cfg raw).*1 = raw.*1.
Proof.
  intros Hb Ht Hw. unfold load_api.
  destruct (load_api_source _ _ _ (BIKES_JSON_PATH cfg)); [| reflexivity].
  destruct (load_api_source _ _ _ (TRAFFIC_JSON_PATH cfg));
    [| apply store_keys, Hb].
  destruct (load_api_source _ _ _ (WEATHER_JSON_PATH cfg)).
  - rewrite !store_keys; auto using store_is_Some.
  - rewrite !store_keys; auto using store_is_Some.
Qed.

Lemma load_batch_keys (cfg : config) (raw : list (string * json)) :
  is_Some (Py.dict_lookup "comptages" raw) → is_Some (Py.dict_lookup "chantiers" raw) →
  is_Some (Py.dict_lookup "referentiel" raw) →
  (load_batch find_csv_files parent path_exists cfg raw).*1 = raw.*1.
Proof.
  intros Hb Ht Hw. unfold load_batch.
  destruct (load_batch_source _ _ _ (COMPTAGES_CSV cfg) _); [| reflexivity].
  destruct (load_batch_source _ _ _ (CHANTIERS_CSV cfg) _);
    [| apply store_keys, Hb].
  destruct (load_batch_source _ _ _ (REFERENTIEL_CSV cfg) _).
  - rewrite !store_keys; auto using store_is_Some.
  - rewrite !store_keys; auto using store_is_Some.
Qed.

(** X19. One failing API source hides the later ones, and only them. The
    loaded data always has the six keys in their order. When loading the
    bikes raises, bikes, traffic and weather all stay [None]; when loading
    the traffic raises, traffic and weather stay [None], whatever their
    directories hold. The three batch entries are what they would be had
    nothing been loaded before them. *)
Theorem api_failure_hides_later_sources (cfg : config) :
  let raw := load_raw_data find_json_files load_json load_and_combine_json_files
               find_csv_files parent path_exists cfg in
  raw.*1 = ["bikes"; "traffic"; "weather"; "comptages"; "chantiers"; "referentiel"]
  ∧ (∀ e, load_api_source find_json_files load_json load_and_combine_json_files
            (BIKES_JSON_PATH cfg) = Raise e →
          Py.dict_lookup "bikes" raw = Some JNull
          ∧ Py.dict_lookup "traffic" raw = Some JNull
          ∧ Py.dict_lookup "weather" raw = Some JNull)
  ∧ (∀ e, load_api_source find_json_files load_json load_and_combine_json_files
            (TRAFFIC_JSON_PATH cfg) = Raise e →
          Py.dict_lookup "traffic" raw = Some JNull
          ∧ Py.dict_lookup "weather" raw = Some JNull)
  ∧ (∀ k, k ∈ ["comptages"; "chantiers"; "referentiel"] →
          Py.dict_lookup k raw
          = Py.dict_lookup k (load_batch find_csv_files parent path_exists cfg
                                nothing_loaded)).
Proof.
  unfold load_raw_data, load_raw_data_local. fold nothing_loaded.
  split; [| split; [| split]].
  - rewrite load_batch_keys.
    + rewrite load_api_keys; [reflexivity | simpl; eauto..].
    + rewrite load_api_frame by discriminate. simpl. eauto.
    + rewrite load_api_frame by discriminate. simpl. eauto.
    + rewrite load_api_frame by discriminate. simpl. eauto.
  - intros e He. rewrite !load_batch_frame by discriminate.
    unfold load_api. rewrite He. repeat split.
  - intros e He. rewrite !load_batch_frame by discriminate.
    unfold load_api. rewrite He.
    destruct (load_api_source _ _ _ (BIKES_JSON_PATH cfg)); [| repeat split].
    rewrite !store_lookup_ne by discriminate. repeat split.
  - intros k Hk. apply load_batch_same, load_api_frame;
      intros ->; repeat (apply elem_of_cons in Hk as [Hk|Hk]; [discriminate|]);
      inversion Hk.
Qed.

End raw_data_more.
Example split_metrics_name :
  Str.split "_" "bikes_metrics_2025-11-04" = ["bikes"; "metrics"; "2025-11-04"].
Proof. reflexivity. Qed.

Example split_keeps_empty_parts : Str.split "_" "a__b" = ["a"; ""; "b"].
Proof. reflexivity. Qed.

Example stem_drops_json :
  Str.stem "bikes_metrics_2025-11-04.json" = "bikes_metrics_2025-11-04".
Proof. reflexivity. Qed.

Example stem_keeps_dotfile : Str.stem ".json" = ".json".
Proof. reflexivity. Qed.

Example fnmatch_metrics :
  Str.fnmatch "bikes_metrics_*.json" "bikes_metrics_2025-11-04.json" = true
  ∧ Str.fnmatch "bikes_metrics_*.json" "traffic_metrics_2025-11-04.json" = false
  ∧ Str.fnmatch "*_metrics_*.json" "traffic_metrics_2025-11-04.json" = true.
Proof. repeat split; reflexivity. Qed.
